(** * ASTRID: HUD state, intent matching and broadcast layer

    A shallow embedding of [astrid/main.py] and the properties of its
    intent classifier, reply generator, conversation log, connection
    registry and message dispatcher.

    Conventions of the embedding.
    - A Python [str] is a [string]; every [ascii] stands for the code point
      of the same number, so the messages covered are the Latin-1 ones.
    - A Python [float] is a primitive binary64 [float].
    - [datetime] values are integers counting microseconds, a [timedelta]
      is their difference.
    - What the environment decides (the clock, the random generator, which
      sends fail) is passed to the operations as explicit arguments.
    - An operation that can raise returns a [result].
    - A message received is any JSON value. A [print] of text that comes
      from a client raises or not as the console decides; what is printed
      is not kept.
    - Every coroutine is run to completion: no other task is scheduled at
      an [await]. *)

From Stdlib Require Import Bool Arith ZArith Lia List Ascii String.
From Stdlib Require Import DecimalString.
From Stdlib Require Import PrimFloat FloatOps SpecFloat.
Import ListNotations.

Set Warnings "-inexact-float,-register-all".

Local Open Scope string_scope.

(** ** Python strings *)

Module PyStr.

(** [str.isspace] on one character, for the code points below 256. *)
Definition isspace (c : ascii) : bool :=
  let n := nat_of_ascii c in
  (((9 <=? n) && (n <=? 13)) || ((28 <=? n) && (n <=? 32))
   || (n =? 133) || (n =? 160))%nat.

(** Upper-case letters among the code points below 256: A-Z, and
    U+00C0-U+00DE except the multiplication sign U+00D7. *)
Definition isupper (c : ascii) : bool :=
  let n := nat_of_ascii c in
  (((65 <=? n) && (n <=? 90))
   || ((192 <=? n) && (n <=? 222) && negb (n =? 215)))%nat.

Definition lower_char (c : ascii) : ascii :=
  if isupper c then ascii_of_nat (nat_of_ascii c + 32) else c.

(** [s.lower()] *)
Fixpoint lower (s : string) : string :=
  match s with
  | EmptyString => EmptyString
  | String c s' => String (lower_char c) (lower s')
  end.

Fixpoint lstrip (s : string) : string :=
  match s with
  | EmptyString => EmptyString
  | String c s' => if isspace c then lstrip s' else s
  end.

Fixpoint rstrip (s : string) : string :=
  match s with
  | EmptyString => EmptyString
  | String c s' =>
      match rstrip s' with
      | EmptyString => if isspace c then EmptyString else String c EmptyString
      | r => String c r
      end
  end.

(** [s.strip()] *)
Definition strip (s : string) : string := rstrip (lstrip s).

(** [sub in s]: [sub] occurs in [s] as a contiguous substring. *)
Fixpoint contains (sub s : string) : bool :=
  if prefix sub s then true
  else match s with
       | EmptyString => false
       | String _ s' => contains sub s'
       end.

(** [s.split()]: the maximal runs of non-whitespace characters.
    [cur] is the run being read, reversed. *)
Fixpoint split_aux (cur : list ascii) (s : string) : list string :=
  let flush := match cur with
               | [] => []
               | _ => [string_of_list_ascii (rev cur)]
               end in
  match s with
  | EmptyString => flush
  | String c s' =>
      if isspace c then flush ++ split_aux [] s'
      else split_aux (c :: cur) s'
  end.

Definition split (s : string) : list string := split_aux [] s.

(** [bool(s)]: a string is true when it is not empty. *)
Definition truthy (s : string) : bool :=
  match s with EmptyString => false | _ => true end.

(** [str(n)] for an [int]. *)
Definition str_of_int (n : Z) : string :=
  NilZero.string_of_int (Z.to_int n).

End PyStr.

(** ** Exceptions *)

(** The exceptions met here; each is a subclass of [Exception]. *)
Inductive exn : Type :=
| TypeError
| ValueError
| OverflowError
| KeyError (key : string)
| IndexError
| WebSocketDisconnect
| AttributeError
| UnicodeEncodeError
| RuntimeError.

Inductive result (A : Type) : Type :=
| Ok (a : A)
| Raise (e : exn).

Arguments Ok {A} a.
Arguments Raise {A} e.

Definition bind {A B : Type} (m : result A) (k : A -> result B) : result B :=
  match m with
  | Ok a => k a
  | Raise e => Raise e
  end.

Declare Scope result_scope.
Delimit Scope result_scope with result.
Notation "x <- m ;; k" := (bind m (fun x => k))
  (at level 61, m at next level, right associativity) : result_scope.

(** ** Intent classifier *)

Inductive Intent : Type :=
| greeting | status | power | battery | water | maintenance | unknown.

Record Analysis : Type := mkAnalysis {
  intent : Intent;
  confidence : float
}.

Definition greeting_keywords : list string := ["hello"; "hi"; "hey"; "greetings"].
Definition status_keywords : list string :=
  ["status"; "how"; "what"; "condition"; "state"].
Definition power_keywords : list string :=
  ["power"; "electricity"; "watt"; "consumption"; "generation"].
Definition battery_keywords : list string :=
  ["battery"; "capacity"; "charge"; "energy"; "storage"].
Definition water_keywords : list string := ["water"; "reserve"; "level"; "tank"].
Definition maintenance_keywords : list string :=
  ["maintenance"; "service"; "check"; "inspect"].

(** [any(word in message_lower for word in words)] *)
Definition any_in (words : list string) (message_lower : string) : bool :=
  existsb (fun word => PyStr.contains word message_lower) words.

Definition analyze_message (message : string) : Analysis :=
  let message_lower := PyStr.strip (PyStr.lower message) in
  if any_in greeting_keywords message_lower then mkAnalysis greeting 0.9
  else if any_in status_keywords message_lower then mkAnalysis status 0.8
  else if any_in power_keywords message_lower then mkAnalysis power 0.85
  else if any_in battery_keywords message_lower then mkAnalysis battery 0.9
  else if any_in water_keywords message_lower then mkAnalysis water 0.7
  else if any_in maintenance_keywords message_lower then mkAnalysis maintenance 0.8
  else mkAnalysis unknown 0.3.

(** ** Vocabulary of the properties *)

(** A word with no whitespace in it. *)
Fixpoint nospace (s : string) : bool :=
  match s with
  | EmptyString => true
  | String c s' => negb (PyStr.isspace c) && nospace s'
  end.

(** A keyword in lower case, not empty and without whitespace. *)
Definition plain_keyword (word : string) : bool :=
  String.eqb (PyStr.lower word) word && nospace word && PyStr.truthy word.

Definition keyword_sets : list (list string) :=
  [ greeting_keywords; status_keywords; power_keywords; battery_keywords;
    water_keywords; maintenance_keywords ].

(** [True] when a word of the message, split at whitespace, is one of
    [words]. *)
Definition has_word (words : list string) (message : string) : bool :=
  existsb (fun w => existsb (String.eqb w) words) (PyStr.split message).

(** The value of a field after an update: the one supplied when the
    update sets the field, the former one otherwise. *)
Definition updated {A : Type} (supplied : option A) (former : A) : A :=
  match supplied with
  | Some v => v
  | None => former
  end.

(** ** Numbers, clock and random source *)

Local Open Scope Z_scope.
Local Open Scope list_scope.

(** [int(f)] for a [float]: truncation toward zero; infinities and NaN
    have no integer value. *)
Definition int_of_float (f : float) : result Z :=
  match Prim2SF f with
  | S754_zero _ => Ok 0
  | S754_infinity _ => Raise OverflowError
  | S754_nan => Raise ValueError
  | S754_finite s m e =>
      let mag := if 0 <=? e then Z.pos m * 2 ^ e else Z.pos m / 2 ^ (- e) in
      Ok (if s then - mag else mag)
  end.

(** [int(v)] for the value of a numeric attribute, which is a [float] or
    [None]. *)
Definition int_of_value (v : option float) : result Z :=
  match v with
  | Some f => int_of_float f
  | None => Raise TypeError
  end.

(** A [datetime], in microseconds. *)
Definition datetime : Type := Z.

Definition microseconds_per_day : Z := 86400 * 1000000.

(** [timedelta(days=n)] *)
Definition timedelta_days (n : Z) : Z := n * microseconds_per_day.

(** [(a - b).days]: a [timedelta] is normalised with its seconds and
    microseconds non-negative, so [days] is the floor. *)
Definition days_between (a b : datetime) : Z := (a - b) / microseconds_per_day.

(** [random.choice(seq)], where [rnd] is the number drawn. *)
Definition random_choice {A : Type} (rnd : nat) (seq : list A) : result A :=
  match nth_error seq (Nat.modulo rnd (List.length seq)) with
  | Some x => Ok x
  | None => Raise IndexError
  end.

(** [d[key]] for a dict kept as an association list. *)
Fixpoint dict_get {A : Type} (d : list (string * A)) (key : string) : result A :=
  match d with
  | [] => Raise (KeyError key)
  | (k, v) :: d' => if String.eqb k key then Ok v else dict_get d' key
  end.

(** [template.format] with keyword arguments, for templates made of text and [{name}]
    fields, the values being integers. [field] is the name being read
    when the scan is inside braces. *)
Fixpoint format_aux (kwargs : list (string * Z)) (field : option string)
    (template : string) : result string :=
  match template, field with
  | EmptyString, None => Ok EmptyString
  | EmptyString, Some _ => Raise ValueError
  | String "{" rest, None => format_aux kwargs (Some EmptyString) rest
  | String "}" rest, None => Raise ValueError
  | String c rest, None =>
      (r <- format_aux kwargs None rest ;; Ok (String c r))%result
  | String "}" rest, Some name =>
      (v <- dict_get kwargs name ;;
       r <- format_aux kwargs None rest ;;
       Ok (PyStr.str_of_int v ++ r)%string)%result
  | String c rest, Some name =>
      format_aux kwargs (Some (name ++ String c EmptyString)%string) rest
  end.

Definition format (template : string) (kwargs : list (string * Z)) : result string :=
  format_aux kwargs None template.

(** ** Data model *)

(** The attributes are declared [str] and [float]; [update_state] assigns
    them without validation, so each can also hold [None]. *)
Record HudState : Type := mkHudState {
  headline : option string;
  eve : option string;
  battery_pct : option float;
  load_w : option float;
  sun_w : option float;
  load_min_w : option float;
  load_max_w : option float;
  sun_min_w : option float;
  sun_max_w : option float;
  last_user_line : option string;
  bot_reply_pending : option string
}.

Definition HudState_default : HudState := {|
  headline := Some "BRAM HOUSE";
  eve := Some "EVE";
  battery_pct := Some 76.0%float;
  load_w := Some 1344.0%float;
  sun_w := Some 8000.0%float;
  load_min_w := Some 0.0%float;
  load_max_w := Some 5000.0%float;
  sun_min_w := Some 0.0%float;
  sun_max_w := Some 8000.0%float;
  last_user_line := Some "HELLO ASTRID, HOW ARE MY RESERVE WATER LEVELS?";
  bot_reply_pending := None
|}.

Record ConversationEntry : Type := mkEntry {
  timestamp : datetime;
  user : string;
  bot : string
}.

Record SystemStatus : Type := mkSystemStatus {
  last_maintenance : datetime;
  alerts : list string;
  mode : string
}.

Record StatefulController : Type := mkController {
  conversation_history : list ConversationEntry;
  user_preferences : list (string * string);
  system_status : SystemStatus
}.

(** [self.response_patterns]: assigned in [__init__] and never again, the
    same table for every controller. *)
Definition response_patterns : list (string * list string) :=
  [ ("greeting",
     [ "Greetings, human. How may I assist you today?";
       "Hello there. What would you like to know about your systems?";
       "ASTRID online and ready. What's your query?" ]);
    ("status",
     [ "Current system status: All systems operational.";
       "Status check complete. Everything is running within normal parameters.";
       "Systems are functioning at optimal levels." ]);
    ("power",
     [ "Power consumption is currently at {load_w}W with {sun_w}W solar generation.";
       "Your power grid shows {load_w}W load against {sun_w}W solar input.";
       "Power status: {battery_pct}% battery, {load_w}W consumption, {sun_w}W generation." ]);
    ("battery",
     [ "Battery capacity is at {battery_pct}%.";
       "Your energy storage shows {battery_pct}% remaining.";
       "Battery status: {battery_pct}% capacity available." ]);
    ("unknown",
     [ "I'm not sure I understand that query. Could you rephrase?";
       "That's outside my current knowledge base. Try asking about power, battery, or system status.";
       "I need more context to help you with that request." ]) ].

(** [StatefulController()], created at time [now]. *)
Definition StatefulController_init (now : datetime) : StatefulController := {|
  conversation_history := [];
  user_preferences := [];
  system_status := {| last_maintenance := now - timedelta_days 7;
                      alerts := [];
                      mode := "normal" |}
|}.

Definition set_history (self : StatefulController)
    (h : list ConversationEntry) : StatefulController :=
  {| conversation_history := h;
     user_preferences := user_preferences self;
     system_status := system_status self |}.

(** ** Conversation log and reply generator *)

(** [pop(0)] is only reached on a list of more than 20 entries, where it
    removes the head. *)
Definition add_to_history (now : datetime) (user_message bot_response : string)
    (self : StatefulController) : StatefulController :=
  let history :=
    conversation_history self ++ [mkEntry now user_message bot_response] in
  set_history self
    (if (20 <? List.length history)%nat then tl history else history).

Definition water_reply : string :=
  "I don't have access to water system sensors at the moment. My current monitoring is limited to power systems.".

Definition generate_response (rnd : nat) (now : datetime) (STATE : HudState)
    (self : StatefulController) (message : string) (intent : Intent)
    : result string :=
  (match intent with
   | greeting =>
       patterns <- dict_get response_patterns "greeting" ;;
       random_choice rnd patterns
   | status =>
       patterns <- dict_get response_patterns "status" ;;
       random_choice rnd patterns
   | power =>
       patterns <- dict_get response_patterns "power" ;;
       template <- random_choice rnd patterns ;;
       load <- int_of_value (load_w STATE) ;;
       sun <- int_of_value (sun_w STATE) ;;
       pct <- int_of_value (battery_pct STATE) ;;
       format template [("load_w", load); ("sun_w", sun); ("battery_pct", pct)]
   | battery =>
       patterns <- dict_get response_patterns "battery" ;;
       template <- random_choice rnd patterns ;;
       pct <- int_of_value (battery_pct STATE) ;;
       format template [("battery_pct", pct)]
   | water => Ok water_reply
   | maintenance =>
       let days_since :=
         days_between now (last_maintenance (system_status self)) in
       if 30 <? days_since then
         Ok ("System maintenance is overdue by "
             ++ PyStr.str_of_int (days_since - 30)
             ++ " days. Recommend scheduling a service check.")%string
       else
         let days_until := 30 - days_since in
         Ok ("Last maintenance was " ++ PyStr.str_of_int days_since
             ++ " days ago. Next scheduled maintenance in "
             ++ PyStr.str_of_int days_until ++ " days.")%string
   | unknown =>
       patterns <- dict_get response_patterns "unknown" ;;
       random_choice rnd patterns
   end)%result.

(** A [float] that is a number: not an infinity, not NaN. *)
Definition is_finite (f : float) : bool :=
  match Prim2SF f with
  | S754_zero _ | S754_finite _ _ _ => true
  | S754_infinity _ | S754_nan => false
  end.

Definition finite_value (v : option float) : bool :=
  match v with
  | Some f => is_finite f
  | None => false
  end.

(** The attributes a reply of the given intent interpolates all hold
    finite numbers. *)
Definition can_reply (STATE : HudState) (intent : Intent) : bool :=
  match intent with
  | power =>
      finite_value (load_w STATE) && finite_value (sun_w STATE)
      && finite_value (battery_pct STATE)
  | battery => finite_value (battery_pct STATE)
  | _ => true
  end.

(** The log after the exchanges [entries] are added in turn, each with
    its own reading of the clock. *)
Definition add_all (entries : list ConversationEntry)
    (self : StatefulController) : StatefulController :=
  fold_left (fun c e => add_to_history (timestamp e) (user e) (bot e) c)
            entries self.

(** [t_reply] and [t_log] are the two readings of the clock, the first
    in [generate_response], the second in [add_to_history]. *)
Definition process_message (rnd : nat) (t_reply t_log : datetime)
    (STATE : HudState) (self : StatefulController) (message : string)
    : result (string * StatefulController) :=
  (let analysis := analyze_message message in
   let intent := intent analysis in
   response <- generate_response rnd t_reply STATE self message intent ;;
   Ok (response, add_to_history t_log message response self))%result.

(** ** Connections, events and the shared state *)

(** A connection is known by its identity. *)
Definition WebSocket : Type := nat.

Inductive event : Type :=
| state_event (data : HudState)
| user_line_event (text : option string)
| clear_center_event
| bot_reply_event (text : option string).

Record ConnectionManager : Type := mkManager {
  active : list WebSocket
}.

(** What the program does to the outside: a send attempted on a
    connection, with whether it went through; a call of [broadcast]; a
    sleep; an assignment to [STATE.bot_reply_pending], with the value the
    attribute holds once it is made, which is what another task reads
    there until the next assignment. A trace lists them oldest first. *)
Inductive effect : Type :=
| Send (ws : WebSocket) (message : event) (delivered : bool)
| BroadcastCalled (message : event)
| Slept (seconds : float)
| Pending (value : option string).

(** The module's globals, and the effects so far. *)
Record World : Type := mkWorld {
  STATE : HudState;
  controller : StatefulController;
  manager : ConnectionManager;
  trace : list effect
}.

(** The outcome of a send on each connection: [None] when it succeeds,
    the exception raised when it fails. *)
Definition Network : Type := WebSocket -> option exn.

Definition send_ok (net : Network) (ws : WebSocket) : bool :=
  match net ws with None => true | Some _ => false end.

(** A computation on the globals that may raise; the state reached when
    it raises is kept. *)
Definition action (A : Type) : Type := World -> result A * World.

Definition ret {A : Type} (a : A) : action A := fun w => (Ok a, w).

Definition abind {A B : Type} (m : action A) (k : A -> action B) : action B :=
  fun w => match m w with
           | (Ok a, w') => k a w'
           | (Raise e, w') => (Raise e, w')
           end.

Definition lift {A : Type} (r : result A) : action A := fun w => (r, w).

Definition try_except {A : Type} (body : action A) (handler : exn -> action A)
    : action A :=
  fun w => match body w with
           | (Ok a, w') => (Ok a, w')
           | (Raise e, w') => handler e w'
           end.

Declare Scope action_scope.
Delimit Scope action_scope with action.
Notation "x <- m ;; k" := (abind m (fun x => k))
  (at level 61, m at next level, right associativity) : action_scope.
Notation "m ;;; k" := (abind m (fun _ => k))
  (at level 61, right associativity) : action_scope.

Definition set_STATE (s : HudState) : action unit :=
  fun w => (Ok tt, mkWorld s (controller w) (manager w) (trace w)).

Definition set_controller (c : StatefulController) : action unit :=
  fun w => (Ok tt, mkWorld (STATE w) c (manager w) (trace w)).

Definition set_active (l : list WebSocket) : action unit :=
  fun w => (Ok tt, mkWorld (STATE w) (controller w) (mkManager l) (trace w)).

Definition emit (e : effect) : action unit :=
  fun w => (Ok tt, mkWorld (STATE w) (controller w) (manager w) (trace w ++ [e])).

Definition get_STATE : action HudState := fun w => (Ok (STATE w), w).
Definition get_controller : action StatefulController :=
  fun w => (Ok (controller w), w).
Definition get_active : action (list WebSocket) :=
  fun w => (Ok (active (manager w)), w).

(** [await ws.send_json(message)] *)
Definition send_json (net : Network) (ws : WebSocket) (message : event)
    : action unit :=
  match net ws with
  | None => emit (Send ws message true)
  | Some e => (emit (Send ws message false) ;;; lift (Raise e))%action
  end.

(** The sends of one broadcast of [message] over the connections [l]. *)
Definition attempts (net : Network) (message : event) (l : list WebSocket)
    : list effect :=
  map (fun ws => Send ws message (send_ok net ws)) l.

(** The messages that reached [ws], oldest first. *)
Definition received (ws : WebSocket) (t : list effect) : list event :=
  flat_map (fun e => match e with
                     | Send ws' message true =>
                         if Nat.eqb ws' ws then [message] else []
                     | _ => []
                     end) t.

(** The messages [broadcast] was called with, oldest first. *)
Definition broadcasts (t : list effect) : list event :=
  flat_map (fun e => match e with
                     | BroadcastCalled message => [message]
                     | _ => []
                     end) t.

(** [await asyncio.sleep(seconds)] *)
Definition asyncio_sleep (seconds : float) : action unit := emit (Slept seconds).

Module ConnectionManager_.

(** [STATE.dict()] is a copy of the state. *)
Definition send_state (net : Network) (ws : WebSocket) : action unit :=
  (s <- get_STATE ;; send_json net ws (state_event s))%action.

(** [await ws.accept()]: [accepted] is its outcome, [None] when the
    handshake completes, the exception raised when it does not. *)
Definition accept (accepted : option exn) : action unit :=
  match accepted with
  | None => ret tt
  | Some e => lift (Raise e)
  end.

Definition connect (accepted : option exn) (net : Network) (ws : WebSocket)
    : action unit :=
  (accept accepted ;;;
   l <- get_active ;;
   set_active (l ++ [ws]) ;;;
   send_state net ws)%action.

(** [list.remove] deletes the first occurrence. *)
Fixpoint list_remove (ws : WebSocket) (l : list WebSocket) : list WebSocket :=
  match l with
  | [] => []
  | x :: l' => if Nat.eqb x ws then l' else x :: list_remove ws l'
  end.

Definition disconnect (ws : WebSocket) : action unit :=
  (l <- get_active ;;
   if existsb (Nat.eqb ws) l then set_active (list_remove ws l) else ret tt)%action.

(** The loop of [broadcast] over the connections still to visit. *)
Fixpoint broadcast_loop (net : Network) (message : event)
    (todo living : list WebSocket) : action (list WebSocket) :=
  match todo with
  | [] => ret living
  | ws :: todo' =>
      (living' <- try_except
                    (send_json net ws message ;;; ret (living ++ [ws]))
                    (fun _ => ret living) ;;
       broadcast_loop net message todo' living')%action
  end.

Definition broadcast (net : Network) (message : event) : action unit :=
  (emit (BroadcastCalled message) ;;;
   l <- get_active ;;
   living <- broadcast_loop net message l [] ;;
   set_active living)%action.

End ConnectionManager_.

(** ** Request handlers *)

Module StateUpdate.

(** A field is [None] when the request did not set it, and [Some v]
    when it set it to [v], which is [None] for an explicit null. *)
Record t : Type := mk {
  headline : option (option string);
  eve : option (option string);
  battery_pct : option (option float);
  load_w : option (option float);
  sun_w : option (option float);
  load_min_w : option (option float);
  load_max_w : option (option float);
  sun_min_w : option (option float);
  sun_max_w : option (option float);
  last_user_line : option (option string)
}.

(** One item [(k, v)] of the dict of an update: the constructor is the
    key. *)
Inductive item : Type :=
| set_headline (v : option string)
| set_eve (v : option string)
| set_battery_pct (v : option float)
| set_load_w (v : option float)
| set_sun_w (v : option float)
| set_load_min_w (v : option float)
| set_load_max_w (v : option float)
| set_sun_min_w (v : option float)
| set_sun_max_w (v : option float)
| set_last_user_line (v : option string).

Definition entry {A : Type} (key : A -> item) (field : option A) : list item :=
  match field with
  | Some v => [key v]
  | None => []
  end.

(** [update.dict(exclude_unset=True).items()]: the fields that were
    set, in the order of their declaration. *)
Definition dict_exclude_unset (update : t) : list item :=
  entry set_headline (headline update)
  ++ entry set_eve (eve update)
  ++ entry set_battery_pct (battery_pct update)
  ++ entry set_load_w (load_w update)
  ++ entry set_sun_w (sun_w update)
  ++ entry set_load_min_w (load_min_w update)
  ++ entry set_load_max_w (load_max_w update)
  ++ entry set_sun_min_w (sun_min_w update)
  ++ entry set_sun_max_w (sun_max_w update)
  ++ entry set_last_user_line (last_user_line update).

End StateUpdate.

(** [setattr(STATE, k, v)] *)
Definition setattr (s : HudState) (kv : StateUpdate.item) : HudState :=
  match kv with
  | StateUpdate.set_headline v =>
      mkHudState v (eve s) (battery_pct s) (load_w s) (sun_w s) (load_min_w s)
        (load_max_w s) (sun_min_w s) (sun_max_w s) (last_user_line s)
        (bot_reply_pending s)
  | StateUpdate.set_eve v =>
      mkHudState (headline s) v (battery_pct s) (load_w s) (sun_w s)
        (load_min_w s) (load_max_w s) (sun_min_w s) (sun_max_w s)
        (last_user_line s) (bot_reply_pending s)
  | StateUpdate.set_battery_pct v =>
      mkHudState (headline s) (eve s) v (load_w s) (sun_w s) (load_min_w s)
        (load_max_w s) (sun_min_w s) (sun_max_w s) (last_user_line s)
        (bot_reply_pending s)
  | StateUpdate.set_load_w v =>
      mkHudState (headline s) (eve s) (battery_pct s) v (sun_w s)
        (load_min_w s) (load_max_w s) (sun_min_w s) (sun_max_w s)
        (last_user_line s) (bot_reply_pending s)
  | StateUpdate.set_sun_w v =>
      mkHudState (headline s) (eve s) (battery_pct s) (load_w s) v
        (load_min_w s) (load_max_w s) (sun_min_w s) (sun_max_w s)
        (last_user_line s) (bot_reply_pending s)
  | StateUpdate.set_load_min_w v =>
      mkHudState (headline s) (eve s) (battery_pct s) (load_w s) (sun_w s) v
        (load_max_w s) (sun_min_w s) (sun_max_w s) (last_user_line s)
        (bot_reply_pending s)
  | StateUpdate.set_load_max_w v =>
      mkHudState (headline s) (eve s) (battery_pct s) (load_w s) (sun_w s)
        (load_min_w s) v (sun_min_w s) (sun_max_w s) (last_user_line s)
        (bot_reply_pending s)
  | StateUpdate.set_sun_min_w v =>
      mkHudState (headline s) (eve s) (battery_pct s) (load_w s) (sun_w s)
        (load_min_w s) (load_max_w s) v (sun_max_w s) (last_user_line s)
        (bot_reply_pending s)
  | StateUpdate.set_sun_max_w v =>
      mkHudState (headline s) (eve s) (battery_pct s) (load_w s) (sun_w s)
        (load_min_w s) (load_max_w s) (sun_min_w s) v (last_user_line s)
        (bot_reply_pending s)
  | StateUpdate.set_last_user_line v =>
      mkHudState (headline s) (eve s) (battery_pct s) (load_w s) (sun_w s)
        (load_min_w s) (load_max_w s) (sun_min_w s) (sun_max_w s) v
        (bot_reply_pending s)
  end.

Definition set_bot_reply_pending (s : HudState) (v : option string) : HudState :=
  mkHudState (headline s) (eve s) (battery_pct s) (load_w s) (sun_w s)
    (load_min_w s) (load_max_w s) (sun_min_w s) (sun_max_w s)
    (last_user_line s) v.

(** [PUT /api/state] *)
Definition update_state (net : Network) (update : StateUpdate.t) : action unit :=
  (let upd := StateUpdate.dict_exclude_unset update in
   s <- get_STATE ;;
   set_STATE (fold_left setattr upd s) ;;;
   s' <- get_STATE ;;
   ConnectionManager_.broadcast net (state_event s'))%action.

(** [STATE.bot_reply_pending = v] *)
Definition assign_bot_reply_pending (v : option string) : action unit :=
  (s <- get_STATE ;;
   set_STATE (set_bot_reply_pending s v) ;;;
   s' <- get_STATE ;;
   emit (Pending (bot_reply_pending s')))%action.

(** [POST /api/bot_reply] *)
Definition bot_reply (net : Network) (payload_text : string) : action unit :=
  (assign_bot_reply_pending (Some payload_text) ;;;
   s1 <- get_STATE ;;
   ConnectionManager_.broadcast net (bot_reply_event (bot_reply_pending s1)) ;;;
   assign_bot_reply_pending None)%action.

(** [controller.process_message(text)] on the globals. *)
Definition controller_process_message (rnd : nat) (t_reply t_log : datetime)
    (message : string) : action string :=
  (s <- get_STATE ;;
   c <- get_controller ;;
   r <- lift (process_message rnd t_reply t_log s c message) ;;
   set_controller (snd r) ;;;
   ret (fst r))%action.

(** [POST /api/controller/process] *)
Definition process_message_directly (rnd : nat) (t_reply t_log : datetime)
    (payload_text : string) : action (string * Analysis) :=
  (response <- controller_process_message rnd t_reply t_log payload_text ;;
   ret (response, analyze_message payload_text))%action.

(** ** Inbound messages and the console *)

(** A value decoded by [receive_json]: any JSON value. An object is given
    by its items, each key once. *)
Inductive json : Type :=
| JNull
| JBool (b : bool)
| JInt (n : Z)
| JFloat (f : float)
| JStr (s : string)
| JArr (items : list json)
| JObj (items : list (string * json)).

Fixpoint json_assoc (key : string) (items : list (string * json)) : option json :=
  match items with
  | [] => None
  | (k, v) :: items' => if String.eqb k key then Some v else json_assoc key items'
  end.

(** [msg.get(key)]: only a dict has the method. *)
Definition json_get (msg : json) (key : string) : result (option json) :=
  match msg with
  | JObj items => Ok (json_assoc key items)
  | _ => Raise AttributeError
  end.

(** [v == s] for a string [s]. *)
Definition json_is_str (v : option json) (s : string) : bool :=
  match v with
  | Some (JStr x) => String.eqb x s
  | _ => false
  end.

(** [bool(v)] *)
Definition json_truthy (v : json) : bool :=
  match v with
  | JNull => false
  | JBool b => b
  | JInt n => negb (n =? 0)
  | JFloat f => negb (PrimFloat.eqb f 0%float)
  | JStr s => PyStr.truthy s
  | JArr items => match items with [] => false | _ => true end
  | JObj items => match items with [] => false | _ => true end
  end.

(** [v or ""], for [v] the result of [msg.get("text")]. *)
Definition text_or_empty (v : option json) : json :=
  match v with
  | Some x => if json_truthy x then x else JStr ""
  | None => JStr ""
  end.

(** [v.strip()]: only a string has the method. *)
Definition json_strip (v : json) : result string :=
  match v with
  | JStr s => Ok (PyStr.strip s)
  | _ => Raise AttributeError
  end.

(** What a [print] interpolates, for the prints whose text comes from
    the client. *)
Inductive printed : Type :=
| Attempt (ws : WebSocket)
| Received (msg : json)
| Processing (user_text : string)
| BotResponse (bot_response : string)
| UnknownType (mtype : option json).

(** The outcome of each such print: [None] when the line is written, the
    exception raised when it is not (a text that the encoding of
    standard output cannot represent, a connection that has no client
    address). What is written is not kept. *)
Definition Console : Type := printed -> option exn.

Definition print (out : Console) (line : printed) : action unit :=
  match out line with
  | None => ret tt
  | Some e => lift (Raise e)
  end.

(** A [print] of a constant, a count or the message of an exception. *)
Definition print_plain : action unit := ret tt.

(** [websocket_endpoint] up to its loop. *)
Definition websocket_open (out : Console) (accepted : option exn)
    (net : Network) (ws : WebSocket) : action unit :=
  (print out (Attempt ws) ;;;
   ConnectionManager_.connect accepted net ws ;;;
   print_plain)%action.

(** The branch of the receive loop taken for a user message whose
    trimmed text [user_text] is not empty. [net1], [net2], [net3] are the
    outcomes of the sends of the successive broadcasts. *)
Definition answer_user_message (out : Console) (net1 net2 net3 : Network)
    (rnd : nat) (t_reply t_log : datetime) (user_text : string) : action unit :=
  (s <- get_STATE ;;
   set_STATE (setattr s (StateUpdate.set_last_user_line (Some user_text))) ;;;
   s1 <- get_STATE ;;
   ConnectionManager_.broadcast net1 (user_line_event (last_user_line s1)) ;;;
   ConnectionManager_.broadcast net2 clear_center_event ;;;
   bot_response <- controller_process_message rnd t_reply t_log user_text ;;
   print out (BotResponse bot_response) ;;;
   asyncio_sleep 1.5 ;;;
   ConnectionManager_.broadcast net3 (bot_reply_event (Some bot_response)) ;;;
   print_plain)%action.

(** The body of the receive loop of [websocket_endpoint] for one message. *)
Definition on_message (out : Console) (net1 net2 net3 : Network) (rnd : nat)
    (t_reply t_log : datetime) (ws : WebSocket) (msg : json) : action unit :=
  (print out (Received msg) ;;;
   mtype <- lift (json_get msg "type") ;;
   if json_is_str mtype "user_message" then
     text <- lift (json_get msg "text") ;;
     user_text <- lift (json_strip (text_or_empty text)) ;;
     print out (Processing user_text) ;;;
     if PyStr.truthy user_text then
       answer_user_message out net1 net2 net3 rnd t_reply t_log user_text
     else ret tt
   else if json_is_str mtype "request_state" then
     print_plain ;;;
     ConnectionManager_.send_state net1 ws
   else print out (UnknownType mtype))%action.

(** One turn of the loop inside its [try]: both handlers print a line
    and deregister the connection, and the endpoint returns. *)
Definition websocket_step (out : Console) (net1 net2 net3 : Network)
    (rnd : nat) (t_reply t_log : datetime) (ws : WebSocket) (msg : json)
    : action unit :=
  try_except (on_message out net1 net2 net3 rnd t_reply t_log ws msg)
             (fun _ => (print_plain ;;; ConnectionManager_.disconnect ws)%action).

(** A user message: an object whose type is ["user_message"] and whose
    text is the string [text]. *)
Definition user_message (text : string) : json :=
  JObj [("type", JStr "user_message"); ("text", JStr text)].

(** ** Read-only endpoints *)

(** [GET /api/state] *)
Definition get_state : action HudState := get_STATE.

(** [GET /api/controller/history]: the log and [total_exchanges]. *)
Definition get_conversation_history : action (list ConversationEntry * nat) :=
  (c <- get_controller ;;
   ret (conversation_history c, List.length (conversation_history c)))%action.

(** ** Requests and the states they lead to *)

(** What the server is asked to do: a connection opening, a message
    arriving on a connection, a connection closing (the receive raises
    [WebSocketDisconnect], or what arrives is not JSON), and the three
    endpoints that write. Each carries what the environment decides while
    it is served. *)
Inductive request : Type :=
| Connect (out : Console) (accepted : option exn) (net : Network)
    (ws : WebSocket)
| Receive (out : Console) (net1 net2 net3 : Network) (rnd : nat)
    (t_reply t_log : datetime) (ws : WebSocket) (msg : json)
| Disconnect (ws : WebSocket)
| PutState (net : Network) (update : StateUpdate.t)
| PostBotReply (net : Network) (payload_text : string)
| PostProcess (rnd : nat) (t_reply t_log : datetime) (payload_text : string).

(** The globals after a request is served, whether it returned or raised. *)
Definition serve (r : request) (w : World) : World :=
  match r with
  | Connect out accepted net ws => snd (websocket_open out accepted net ws w)
  | Receive out net1 net2 net3 rnd t_reply t_log ws msg =>
      snd (websocket_step out net1 net2 net3 rnd t_reply t_log ws msg w)
  | Disconnect ws => snd (ConnectionManager_.disconnect ws w)
  | PutState net update => snd (update_state net update w)
  | PostBotReply net payload_text => snd (bot_reply net payload_text w)
  | PostProcess rnd t_reply t_log payload_text =>
      snd (process_message_directly rnd t_reply t_log payload_text w)
  end.

(** A connection that opens is a new object: it is not registered yet. *)
Definition admissible (r : request) (w : World) : bool :=
  match r with
  | Connect _ _ _ ws => negb (existsb (Nat.eqb ws) (active (manager w)))
  | _ => true
  end.

(** The globals when the module is loaded at time [t0]. *)
Definition initial_world (t0 : datetime) : World :=
  mkWorld HudState_default (StatefulController_init t0) (mkManager []) [].

(** The states between requests of a server started at [t0]. *)
Inductive reachable (t0 : datetime) : World -> Prop :=
| reachable_initial : reachable t0 (initial_world t0)
| reachable_serve (r : request) (w : World) :
    reachable t0 w -> admissible r w = true -> reachable t0 (serve r w).

(** Every character of [s] is whitespace. *)
Definition blank (s : string) : bool :=
  forallb PyStr.isspace (list_ascii_of_string s).

(** What holds of the globals between requests of a server started at
    [t0]. *)
Definition steady (t0 : datetime) (w : World) : Prop :=
  (List.length (conversation_history (controller w)) <= 20)%nat
  /\ system_status (controller w) = system_status (StatefulController_init t0)
  /\ user_preferences (controller w) = []
  /\ bot_reply_pending (STATE w) = None
  /\ NoDup (active (manager w)).

(** The ways a handler changes the globals: it keeps [bot_reply_pending],
    only takes connections out of the registry, and only adds exchanges
    to the log. *)
Definition narrows (w w' : World) : Prop :=
  bot_reply_pending (STATE w') = bot_reply_pending (STATE w)
  /\ (exists keep : WebSocket -> bool,
        active (manager w') = filter keep (active (manager w)))
  /\ (exists entries : list ConversationEntry,
        controller w' = add_all entries (controller w)).

(** An action that changes the globals only in these ways. *)
Definition keeps {A : Type} (m : action A) : Prop :=
  forall w : World, narrows w (snd (m w)).

(** The text of a message is missing, false (null, false, zero, an empty
    string, list or object) or a string of whitespace only. *)
Definition no_text (text : option json) : bool :=
  match text with
  | None => true
  | Some (JStr s) => blank s
  | Some v => negb (json_truthy v)
  end.

(** * Properties *)

(** ** Substrings, [lower] and [strip] *)

Section StringFacts.

Local Open Scope string_scope.
Import PyStr.

Lemma append_assoc (a b c : string) : (a ++ b) ++ c = a ++ b ++ c.
Proof. induction a as [|x a IH]; simpl; [reflexivity | now rewrite IH]. Qed.

Lemma append_empty_r (a : string) : a ++ "" = a.
Proof. induction a as [|x a IH]; simpl; [reflexivity | now rewrite IH]. Qed.

Lemma prefix_append (sub rest : string) : prefix sub (sub ++ rest) = true.
Proof.
  induction sub as [|x sub IH]; simpl.
  - now destruct rest.
  - destruct (ascii_dec x x) as [_|ne]; [exact IH | now elim ne].
Qed.

Lemma prefix_split (sub s : string) :
  prefix sub s = true -> exists rest, s = sub ++ rest.
Proof.
  revert s; induction sub as [|x sub IH]; intros s H.
  - now exists s.
  - destruct s as [|y s]; simpl in H; [discriminate|].
    destruct (ascii_dec x y) as [->|]; [|discriminate].
    destruct (IH _ H) as [rest ->]. now exists rest.
Qed.

Lemma contains_cons (sub s : string) (c : ascii) :
  contains sub s = true -> contains sub (String c s) = true.
Proof.
  intros H. cbn [contains]. now destruct (prefix sub (String c s)).
Qed.

Lemma contains_append (before sub rest : string) :
  contains sub (before ++ sub ++ rest) = true.
Proof.
  induction before as [|x before IH].
  - cbn [append]. destruct (sub ++ rest) eqn:E; cbn [contains];
      rewrite <- E, prefix_append; reflexivity.
  - cbn [append]. now apply contains_cons.
Qed.

Lemma contains_split (sub s : string) :
  contains sub s = true -> exists before rest, s = before ++ sub ++ rest.
Proof.
  induction s as [|x s IH]; cbn [contains]; intros H.
  - destruct (prefix sub "") eqn:P; [|discriminate].
    destruct (prefix_split _ _ P) as [rest E]. now exists "", rest.
  - destruct (prefix sub (String x s)) eqn:P.
    + destruct (prefix_split _ _ P) as [rest E]. now exists "", rest.
    + destruct (IH H) as (before & rest & ->).
      now exists (String x before), rest.
Qed.

Lemma lower_append (a b : string) : lower (a ++ b) = lower a ++ lower b.
Proof. induction a as [|x a IH]; simpl; [reflexivity | now rewrite IH]. Qed.

Lemma contains_lower (sub s : string) :
  contains sub s = true -> contains (lower sub) (lower s) = true.
Proof.
  intros H. destruct (contains_split _ _ H) as (before & rest & ->).
  rewrite !lower_append. apply contains_append.
Qed.

Lemma lstrip_suffix (s : string) : exists before, s = before ++ lstrip s.
Proof.
  induction s as [|x s [before IH]]; simpl.
  - now exists "".
  - destruct (isspace x).
    + exists (String x before). simpl. now rewrite <- IH.
    + now exists "".
Qed.

Lemma rstrip_prefix (s : string) : exists rest, s = rstrip s ++ rest.
Proof.
  induction s as [|x s [rest IH]]; simpl.
  - now exists "".
  - destruct (rstrip s) as [|y r] eqn:E.
    + destruct (isspace x).
      * exists (String x s). reflexivity.
      * exists rest. simpl. now rewrite IH at 1.
    + exists rest. simpl. now rewrite IH at 1.
Qed.

Lemma contains_strip_inv (sub s : string) :
  contains sub (strip s) = true -> contains sub s = true.
Proof.
  unfold strip. intros H.
  destruct (contains_split _ _ H) as (a & b & E).
  destruct (rstrip_prefix (lstrip s)) as [r Er].
  destruct (lstrip_suffix s) as [l El].
  rewrite El, Er, E, !append_assoc.
  rewrite <- (append_assoc l a). apply contains_append.
Qed.

Lemma rstrip_cons_nonempty (x : ascii) (s : string) :
  rstrip s <> "" -> rstrip (String x s) = String x (rstrip s).
Proof. simpl. destruct (rstrip s); [now intros []|reflexivity]. Qed.

Lemma rstrip_word (sub rest : string) :
  nospace sub = true -> sub <> "" ->
  exists rest', rstrip (sub ++ rest) = sub ++ rest'.
Proof.
  induction sub as [|x sub IH]; [now intros _ []|].
  cbn [nospace]. intros [Hx Hs]%andb_prop _.
  apply negb_true_iff in Hx.
  destruct sub as [|y sub].
  - cbn [append rstrip]. rewrite Hx.
    destruct (rstrip rest) as [|z r]; [now exists ""|now exists (String z r)].
  - destruct (IH Hs ltac:(discriminate)) as [rest' E].
    exists rest'. cbn [append] in *. rewrite rstrip_cons_nonempty; rewrite E.
    + reflexivity.
    + discriminate.
Qed.

Lemma rstrip_keeps (before sub rest : string) :
  nospace sub = true -> sub <> "" ->
  exists rest', rstrip (before ++ sub ++ rest) = before ++ sub ++ rest'.
Proof.
  intros Hs Hne. induction before as [|x before [rest' IH]].
  - change ("" ++ sub ++ rest) with (sub ++ rest). now apply rstrip_word.
  - exists rest'. cbn [append]. rewrite rstrip_cons_nonempty; rewrite IH.
    + reflexivity.
    + destruct before; [destruct sub; [now elim Hne|]|]; discriminate.
Qed.

Lemma lstrip_keeps (before sub rest : string) :
  nospace sub = true -> sub <> "" ->
  exists before', lstrip (before ++ sub ++ rest) = before' ++ sub ++ rest.
Proof.
  intros Hs Hne. induction before as [|x before [before' IH]].
  - exists "". destruct sub as [|y sub]; [now elim Hne|].
    cbn [nospace] in Hs. apply andb_prop in Hs as [Hy _].
    apply negb_true_iff in Hy. cbn [append lstrip]. now rewrite Hy.
  - cbn [append lstrip]. destruct (isspace x).
    + now exists before'.
    + now exists (String x before).
Qed.

Lemma contains_strip (sub s : string) :
  nospace sub = true -> sub <> "" ->
  contains sub s = true -> contains sub (strip s) = true.
Proof.
  intros Hs Hne H. destruct (contains_split _ _ H) as (a & b & ->).
  unfold strip.
  destruct (lstrip_keeps a sub b Hs Hne) as [a' ->].
  destruct (rstrip_keeps a' sub b Hs Hne) as [b' ->].
  apply contains_append.
Qed.

Lemma plain_keyword_kept (word message : string) :
  plain_keyword word = true ->
  contains word message = true ->
  contains word (strip (lower message)) = true.
Proof.
  unfold plain_keyword. intros [[Hl Hs]%andb_prop Ht]%andb_prop H.
  apply String.eqb_eq in Hl.
  apply contains_strip; trivial.
  - destruct word; [discriminate|discriminate].
  - rewrite <- Hl. now apply contains_lower.
Qed.

Lemma any_in_kept (words : list string) (message : string) :
  forallb plain_keyword words = true ->
  any_in words message = true ->
  any_in words (strip (lower message)) = true.
Proof.
  unfold any_in. intros Hp [word [Hin H]]%existsb_exists.
  apply existsb_exists. exists word. split; [exact Hin|].
  apply plain_keyword_kept; [|exact H].
  rewrite forallb_forall in Hp. now apply Hp.
Qed.

Lemma any_in_strip_false (words : list string) (s : string) :
  any_in words s = false -> any_in words (strip s) = false.
Proof.
  unfold any_in. intros H.
  destruct (existsb _ words) eqn:E in |- *; [|reflexivity].
  apply existsb_exists in E as [word [Hin Hc]].
  apply contains_strip_inv in Hc.
  assert (existsb (fun word => contains word s) words = true) as E'
    by (apply existsb_exists; eauto).
  congruence.
Qed.

End StringFacts.

(** ** Intent classifier *)

Section Classifier.

Local Open Scope string_scope.

Lemma keywords_plain :
  forallb (forallb plain_keyword) keyword_sets = true.
Proof. reflexivity. Qed.

(** A message with a status word and a power word that also greets is
    classified as a greeting. *)
Lemma status_power_counterexample :
  let message := "hello, what is the power status" in
  any_in status_keywords message = true
  /\ any_in power_keywords message = true
  /\ analyze_message message = mkAnalysis greeting 0.9
  /\ intent (analyze_message message) <> status.
Proof.
  cbv zeta. repeat split; try reflexivity.
  change (analyze_message "hello, what is the power status")
    with (mkAnalysis greeting 0.9).
  discriminate.
Qed.

(** C1 (amended): a message that contains a status keyword and a power
    keyword, and whose lower-cased text contains no greeting keyword, is
    classified as [status], with confidence 0.8. *)
Theorem status_before_power (message : string) :
  any_in status_keywords message = true ->
  any_in power_keywords message = true ->
  any_in greeting_keywords (PyStr.lower message) = false ->
  analyze_message message = mkAnalysis status 0.8.
Proof.
  intros Hs _ Hg. unfold analyze_message.
  rewrite (any_in_strip_false _ _ Hg).
  rewrite (any_in_kept status_keywords message eq_refl Hs).
  reflexivity.
Qed.

Lemma status_before_power_witness :
  let message := "What is the power status?" in
  (any_in status_keywords message = true
   /\ any_in power_keywords message = true
   /\ any_in greeting_keywords (PyStr.lower message) = false)
  /\ analyze_message message = mkAnalysis status 0.8.
Proof.
  cbv zeta. split.
  - repeat split; reflexivity.
  - apply (status_before_power "What is the power status?"); reflexivity.
Defined.

(** C2: the confidence is the constant of the intent returned; a message
    in which no keyword set matches is [unknown] with 0.3; ["hello"] is
    a greeting with 0.9 and ["what is my battery level"] is [status]
    with 0.8. Each intent is returned, with its constant, for every
    message in which its keyword set is the first to match, in the order
    greeting, status, power, battery, water, maintenance; there is a
    message for each. *)
Theorem analyze_message_confidence :
  (forall message : string,
     confidence (analyze_message message) =
     match intent (analyze_message message) with
     | greeting => 0.9
     | status => 0.8
     | power => 0.85
     | battery => 0.9
     | water => 0.7
     | maintenance => 0.8
     | unknown => 0.3
     end%float)
  /\ (forall message : string,
        (forall words, In words keyword_sets ->
           any_in words (PyStr.strip (PyStr.lower message)) = false) ->
        analyze_message message = mkAnalysis unknown 0.3)
  /\ analyze_message "hello" = mkAnalysis greeting 0.9
  /\ analyze_message "what is my battery level" = mkAnalysis status 0.8
  /\ (forall message : string,
        let m := PyStr.strip (PyStr.lower message) in
        (any_in greeting_keywords m = true ->
         analyze_message message = mkAnalysis greeting 0.9)
        /\ (any_in greeting_keywords m = false ->
            any_in status_keywords m = true ->
            analyze_message message = mkAnalysis status 0.8)
        /\ (any_in greeting_keywords m = false ->
            any_in status_keywords m = false ->
            any_in power_keywords m = true ->
            analyze_message message = mkAnalysis power 0.85)
        /\ (any_in greeting_keywords m = false ->
            any_in status_keywords m = false ->
            any_in power_keywords m = false ->
            any_in battery_keywords m = true ->
            analyze_message message = mkAnalysis battery 0.9)
        /\ (any_in greeting_keywords m = false ->
            any_in status_keywords m = false ->
            any_in power_keywords m = false ->
            any_in battery_keywords m = false ->
            any_in water_keywords m = true ->
            analyze_message message = mkAnalysis water 0.7)
        /\ (any_in greeting_keywords m = false ->
            any_in status_keywords m = false ->
            any_in power_keywords m = false ->
            any_in battery_keywords m = false ->
            any_in water_keywords m = false ->
            any_in maintenance_keywords m = true ->
            analyze_message message = mkAnalysis maintenance 0.8))
  /\ analyze_message "Power?" = mkAnalysis power 0.85
  /\ analyze_message "battery" = mkAnalysis battery 0.9
  /\ analyze_message "Water tank" = mkAnalysis water 0.7
  /\ analyze_message "maintenance" = mkAnalysis maintenance 0.8
  /\ analyze_message "thanks" = mkAnalysis unknown 0.3.
Proof.
  split; [|split; [|split; [|split; [|split]]]]; try reflexivity.
  - intros message. unfold analyze_message.
    repeat match goal with
           | |- context [if ?b then _ else _] => destruct b
           end; reflexivity.
  - intros message H. unfold analyze_message.
    rewrite !H; [reflexivity | unfold keyword_sets; simpl; tauto ..].
  - intros message. cbv zeta. unfold analyze_message.
    repeat split; intros;
      repeat match goal with
             | H : any_in _ _ = _ |- _ => rewrite H; clear H
             end; reflexivity.
  - repeat split; reflexivity.
Qed.

Lemma analyze_message_confidence_witness :
  (forall words, In words keyword_sets ->
     any_in words (PyStr.strip (PyStr.lower "Open the pod bay doors")) = false)
  /\ analyze_message "Open the pod bay doors" = mkAnalysis unknown 0.3.
Proof.
  assert (forall words, In words keyword_sets ->
            any_in words (PyStr.strip (PyStr.lower "Open the pod bay doors"))
            = false) as H.
  { intros words Hin. unfold keyword_sets in Hin. simpl in Hin.
    repeat destruct Hin as [<-|Hin]; try reflexivity. contradiction. }
  split; [exact H|].
  exact (proj1 (proj2 analyze_message_confidence) "Open the pod bay doors" H).
Defined.

(** ["hi"] does not occur in ["switch"], and the message is not a
    greeting. *)
Lemma switch_the_mode_counterexample :
  PyStr.contains "hi" "switch" = false
  /\ analyze_message "switch the mode" = mkAnalysis unknown 0.3
  /\ intent (analyze_message "switch the mode") <> greeting.
Proof.
  repeat split; try reflexivity.
  change (analyze_message "switch the mode") with (mkAnalysis unknown 0.3).
  discriminate.
Qed.

(** C9 (amended): keywords are matched as substrings, not as words:
    ["switch this mode"] has no greeting keyword as a word of its own,
    ["hi"] occurs inside ["this"], and it is classified as a greeting
    with confidence 0.9. *)
Theorem substring_matching :
  let message := "switch this mode" in
  has_word greeting_keywords (PyStr.strip (PyStr.lower message)) = false
  /\ PyStr.split message = ["switch"; "this"; "mode"]
  /\ PyStr.contains "hi" "this" = true
  /\ analyze_message message = mkAnalysis greeting 0.9.
Proof. cbv zeta. repeat split; reflexivity. Qed.

End Classifier.

(** ** Conversation log *)

Section History.

Local Open Scope nat_scope.

Lemma mkEntry_eta (e : ConversationEntry) :
  mkEntry (timestamp e) (user e) (bot e) = e.
Proof. now destruct e. Qed.

(** One addition keeps the 20 most recent entries. *)
Lemma add_to_history_recent (now : datetime) (u b : string)
    (self : StatefulController) :
  let history := conversation_history self ++ [mkEntry now u b] in
  List.length (conversation_history self) <= 20 ->
  conversation_history (add_to_history now u b self)
  = skipn (List.length history - 20) history.
Proof.
  cbv zeta. intros Hlen. unfold add_to_history.
  cbn [set_history conversation_history].
  set (history := conversation_history self ++ [mkEntry now u b]).
  assert (List.length history = S (List.length (conversation_history self)))
    as Hl by (unfold history; rewrite length_app; simpl; lia).
  destruct (Nat.ltb_spec 20 (List.length history)) as [Hgt|Hle].
  - replace (List.length history - 20) with 1 by lia. now destruct history.
  - replace (List.length history - 20) with 0 by lia. reflexivity.
Qed.

Lemma skipn_recent_length {A : Type} (l : list A) :
  List.length (skipn (List.length l - 20) l) <= 20.
Proof. rewrite length_skipn. lia. Qed.

Lemma skipn_recent {A : Type} (l rest : list A) :
  let k := List.length l - 20 in
  skipn (List.length (skipn k l ++ rest) - 20) (skipn k l ++ rest)
  = skipn (List.length (l ++ rest) - 20) (l ++ rest).
Proof.
  intros k.
  assert (skipn k l ++ rest = skipn k (l ++ rest)) as ->.
  { rewrite skipn_app. replace (k - List.length l) with 0 by lia. reflexivity. }
  rewrite skipn_skipn, length_skipn. f_equal.
  rewrite length_app. lia.
Qed.

Lemma add_all_recent (entries : list ConversationEntry) :
  forall self : StatefulController,
    List.length (conversation_history self) <= 20 ->
    let all := conversation_history self ++ entries in
    conversation_history (add_all entries self)
    = skipn (List.length all - 20) all.
Proof.
  induction entries as [|e entries IH]; intros self Hlen; cbv zeta.
  - cbn [add_all fold_left]. rewrite app_nil_r.
    replace (_ - 20) with 0 by lia. reflexivity.
  - cbn [add_all fold_left].
    pose proof (add_to_history_recent (timestamp e) (user e) (bot e) self Hlen)
      as Hadd. cbv zeta in Hadd. rewrite mkEntry_eta in Hadd.
    change (fold_left _ entries ?c) with (add_all entries c).
    rewrite IH by (rewrite Hadd; apply skipn_recent_length).
    cbv zeta. rewrite Hadd, skipn_recent, <- app_assoc. reflexivity.
Qed.

(** C3: from an empty log, after any sequence of additions the log holds
    at most 20 entries, namely the most recent ones in the order they were
    added; after 21 additions it holds the 2nd to the 21st, so the 21st is
    present, and the 1st, when no later entry equals it, is absent. *)
Theorem conversation_log_bounded (now : datetime) :
  (forall entries : list ConversationEntry,
     let log :=
       conversation_history (add_all entries (StatefulController_init now)) in
     List.length log <= 20
     /\ log = skipn (List.length entries - 20) entries)
  /\ (forall (first last_ : ConversationEntry)
             (middle : list ConversationEntry),
        List.length middle = 19 ->
        let log :=
          conversation_history
            (add_all (first :: middle ++ [last_]) (StatefulController_init now)) in
        log = middle ++ [last_]
        /\ In last_ log
        /\ (~ In first (middle ++ [last_]) -> ~ In first log)).
Proof.
  assert (forall entries,
            conversation_history
              (add_all entries (StatefulController_init now))
            = skipn (List.length entries - 20) entries) as H.
  { intros entries.
    apply (add_all_recent entries (StatefulController_init now)).
    simpl. lia. }
  split.
  - intros entries. cbv zeta. rewrite H. split; [|reflexivity].
    apply skipn_recent_length.
  - intros first last_ middle Hlen. cbv zeta. rewrite H.
    replace (List.length (first :: middle ++ [last_]) - 20) with 1
      by (cbn [List.length]; rewrite length_app; simpl; lia).
    cbn [skipn]. repeat split.
    + apply in_or_app. right. now left.
    + trivial.
Qed.

Lemma conversation_log_bounded_witness :
  let entry (n : nat) :=
    mkEntry (Z.of_nat n) "status" "Systems are functioning at optimal levels." in
  let middle := map entry (seq 1 19) in
  let log :=
    conversation_history
      (add_all (entry 0 :: middle ++ [entry 20]) (StatefulController_init 0%Z)) in
  (List.length middle = 19 /\ ~ In (entry 0) (middle ++ [entry 20]))
  /\ log = middle ++ [entry 20]
  /\ In (entry 20) log
  /\ ~ In (entry 0) log.
Proof.
  intros entry middle log.
  assert (~ In (entry 0) (middle ++ [entry 20])) as Hfresh.
  { simpl. intros H. repeat destruct H as [H|H]; try discriminate H. exact H. }
  split; [split; [reflexivity | exact Hfresh]|].
  destruct (proj2 (conversation_log_bounded 0%Z) (entry 0) (entry 20) middle eq_refl)
    as (Hlog & Hin & Habs).
  split; [exact Hlog | split; [exact Hin | exact (Habs Hfresh)]].
Defined.

End History.

(** ** Broadcast *)

Section Broadcast.

Import ConnectionManager_.

Variable net : Network.
Variable message : event.

Lemma broadcast_loop_run (todo : list WebSocket) :
  forall (living : list WebSocket) (w : World),
    broadcast_loop net message todo living w
    = (Ok (living ++ filter (send_ok net) todo),
       mkWorld (STATE w) (controller w) (manager w) (trace w ++ attempts net message todo)).
Proof.
  induction todo as [|ws todo IH]; intros living w.
  - cbn. rewrite !app_nil_r. now destruct w.
  - cbn [broadcast_loop attempts map filter].
    unfold abind at 1. unfold try_except, send_json, send_ok.
    destruct (net ws) as [e|].
    + cbn. rewrite IH. cbn. now rewrite <- app_assoc.
    + cbn. rewrite IH. cbn. now rewrite <- !app_assoc.
Qed.

Lemma broadcast_run (w : World) :
  broadcast net message w
  = (Ok tt,
     mkWorld (STATE w) (controller w)
       (mkManager (filter (send_ok net) (active (manager w))))
       (trace w
        ++ BroadcastCalled message :: attempts net message (active (manager w)))).
Proof.
  unfold broadcast, abind, emit, get_active, set_active.
  cbn. rewrite broadcast_loop_run. cbn. now rewrite <- app_assoc.
Qed.


End Broadcast.


(** ** State updates *)

Section Updates.

Lemma setattr_items (update : StateUpdate.t) (s : HudState) :
  fold_left setattr (StateUpdate.dict_exclude_unset update) s
  = {| headline := updated (StateUpdate.headline update) (headline s);
       eve := updated (StateUpdate.eve update) (eve s);
       battery_pct := updated (StateUpdate.battery_pct update) (battery_pct s);
       load_w := updated (StateUpdate.load_w update) (load_w s);
       sun_w := updated (StateUpdate.sun_w update) (sun_w s);
       load_min_w := updated (StateUpdate.load_min_w update) (load_min_w s);
       load_max_w := updated (StateUpdate.load_max_w update) (load_max_w s);
       sun_min_w := updated (StateUpdate.sun_min_w update) (sun_min_w s);
       sun_max_w := updated (StateUpdate.sun_max_w update) (sun_max_w s);
       last_user_line :=
         updated (StateUpdate.last_user_line update) (last_user_line s);
       bot_reply_pending := bot_reply_pending s |}.
Proof.
  destruct s.
  destruct update as [[?|] [?|] [?|] [?|] [?|] [?|] [?|] [?|] [?|] [?|]];
    reflexivity.
Qed.

(** C5: an update leaves every field it does not set as it was, gives
    every field it sets the value supplied, and then broadcasts the
    resulting state in full. *)
Theorem update_state_partial (net : Network) (update : StateUpdate.t)
    (w : World) :
  exists w' : World,
    update_state net update w = (Ok tt, w')
    /\ STATE w'
       = {| headline := updated (StateUpdate.headline update) (headline (STATE w));
            eve := updated (StateUpdate.eve update) (eve (STATE w));
            battery_pct :=
              updated (StateUpdate.battery_pct update) (battery_pct (STATE w));
            load_w := updated (StateUpdate.load_w update) (load_w (STATE w));
            sun_w := updated (StateUpdate.sun_w update) (sun_w (STATE w));
            load_min_w :=
              updated (StateUpdate.load_min_w update) (load_min_w (STATE w));
            load_max_w :=
              updated (StateUpdate.load_max_w update) (load_max_w (STATE w));
            sun_min_w :=
              updated (StateUpdate.sun_min_w update) (sun_min_w (STATE w));
            sun_max_w :=
              updated (StateUpdate.sun_max_w update) (sun_max_w (STATE w));
            last_user_line :=
              updated (StateUpdate.last_user_line update)
                      (last_user_line (STATE w));
            bot_reply_pending := bot_reply_pending (STATE w) |}
    /\ trace w'
       = trace w
         ++ BroadcastCalled (state_event (STATE w'))
            :: attempts net (state_event (STATE w')) (active (manager w))
    /\ controller w' = controller w.
Proof.
  eexists. split.
  - unfold update_state, abind, get_STATE, set_STATE.
    cbn [STATE controller manager trace]. rewrite broadcast_run.
    cbn [STATE controller manager trace]. reflexivity.
  - cbn [STATE controller manager trace active].
    rewrite setattr_items. repeat split.
Qed.


End Updates.


(** ** Maintenance replies *)

Section Maintenance.

Local Open Scope string_scope.

Lemma days_between_whole (a b : datetime) (n : Z) :
  timedelta_days n <= a - b < timedelta_days (n + 1) ->
  days_between a b = n.
Proof.
  unfold days_between, timedelta_days, microseconds_per_day. intros H.
  symmetry. apply (Zdiv_unique _ _ n (a - b - n * (86400 * 1000000))); lia.
Qed.

(** Seven days after the last maintenance the reply is not the sentence
    quoted for it, nor does it contain it; after 35 days the reply is not
    the quoted words alone. *)
Lemma maintenance_reply_counterexample :
  let self := StatefulController_init 0 in
  (0 - last_maintenance (system_status self) = timedelta_days 7
   /\ generate_response 0 0 HudState_default self "maintenance" maintenance
      <> Ok "last maintenance was 7 days ago, next in 23 days"
   /\ generate_response 0 0 HudState_default self "maintenance" maintenance
      = Ok "Last maintenance was 7 days ago. Next scheduled maintenance in 23 days."
   /\ PyStr.contains "last maintenance was 7 days ago, next in 23 days"
        "Last maintenance was 7 days ago. Next scheduled maintenance in 23 days."
      = false)
  /\ (timedelta_days 28 - last_maintenance (system_status self)
      = timedelta_days 35
      /\ generate_response 0 (timedelta_days 28) HudState_default self
           "maintenance" maintenance
         <> Ok "overdue by 5 days").
Proof. cbv zeta. repeat split; try reflexivity; discriminate. Qed.

(** C6 (amended): with [days_since] the whole days from the last
    maintenance to now, the reply is "System maintenance is overdue by
    [days_since - 30] days. Recommend scheduling a service check." when
    [days_since > 30], and "Last maintenance was [days_since] days ago. Next
    scheduled maintenance in [30 - days_since] days." otherwise; 7 days
    after the last maintenance it is "Last maintenance was 7 days ago. Next
    scheduled maintenance in 23 days.", 35 days after it is "System
    maintenance is overdue by 5 days. Recommend scheduling a service
    check.". *)
Theorem maintenance_reply (rnd : nat) (now : datetime) (s : HudState)
    (self : StatefulController) (message : string) :
  let last := last_maintenance (system_status self) in
  let days_since := days_between now last in
  let reply := generate_response rnd now s self message maintenance in
  (30 < days_since ->
   reply = Ok ("System maintenance is overdue by "
               ++ PyStr.str_of_int (days_since - 30)
               ++ " days. Recommend scheduling a service check."))
  /\ (days_since <= 30 ->
      reply = Ok ("Last maintenance was " ++ PyStr.str_of_int days_since
                  ++ " days ago. Next scheduled maintenance in "
                  ++ PyStr.str_of_int (30 - days_since) ++ " days."))
  /\ (timedelta_days 7 <= now - last < timedelta_days 8 ->
      reply = Ok "Last maintenance was 7 days ago. Next scheduled maintenance in 23 days.")
  /\ (timedelta_days 35 <= now - last < timedelta_days 36 ->
      reply = Ok "System maintenance is overdue by 5 days. Recommend scheduling a service check.").
Proof.
  cbv zeta. unfold generate_response. repeat split.
  - intros H. apply Z.ltb_lt in H. now rewrite H.
  - intros H. apply Z.ltb_ge in H. now rewrite H.
  - intros H. now rewrite (days_between_whole _ _ 7 H).
  - intros H. now rewrite (days_between_whole _ _ 35 H).
Qed.

Lemma maintenance_reply_witness :
  let self := StatefulController_init 1000 in
  let last := last_maintenance (system_status self) in
  let now := 1000 + 3600 * 1000000 in
  (days_between now last <= 30
   /\ timedelta_days 7 <= now - last < timedelta_days 8)
  /\ generate_response 0 now HudState_default self "service due?" maintenance
     = Ok "Last maintenance was 7 days ago. Next scheduled maintenance in 23 days.".
Proof.
  intros self last now.
  assert (timedelta_days 7 <= now - last < timedelta_days 8) as H
    by (split; [discriminate | reflexivity]).
  split; [split; [discriminate | exact H]|].
  exact (proj1 (proj2 (proj2
           (maintenance_reply 0 now HudState_default self "service due?"))) H).
Defined.

End Maintenance.

(** ** Reply generation and the direct processing path *)

Section Replies.

Local Open Scope string_scope.

Lemma int_of_value_finite (v : option float) :
  finite_value v = true -> exists n : Z, int_of_value v = Ok n.
Proof.
  destruct v as [f|]; [|discriminate].
  unfold finite_value, is_finite, int_of_value, int_of_float.
  destruct (Prim2SF f); try discriminate; intros _; eexists; reflexivity.
Qed.

Lemma int_of_value_not_finite (v : option float) :
  finite_value v = false -> exists e : exn, int_of_value v = Raise e.
Proof.
  destruct v as [f|]; [|intros _; eexists; reflexivity].
  unfold finite_value, is_finite, int_of_value, int_of_float.
  destruct (Prim2SF f); try discriminate; intros _; eexists; reflexivity.
Qed.

Lemma random_choice_three {A : Type} (rnd : nat) (a b c : A) :
  random_choice rnd [a; b; c] = Ok a
  \/ random_choice rnd [a; b; c] = Ok b
  \/ random_choice rnd [a; b; c] = Ok c.
Proof.
  unfold random_choice. cbn [List.length].
  pose proof (Nat.mod_upper_bound rnd 3 ltac:(discriminate)) as H.
  destruct (Nat.modulo rnd 3) as [|[|[|k]]]; cbn; auto.
  exfalso. lia.
Qed.

Ltac pick_pattern rnd :=
  match goal with
  | |- context [random_choice rnd [?a; ?b; ?c]] =>
      destruct (random_choice_three rnd a b c) as [E|[E|E]]; rewrite E; clear E
  end.

(** Reply generation returns whenever the numbers it interpolates are
    finite. *)
Lemma generate_response_returns (rnd : nat) (now : datetime) (s : HudState)
    (self : StatefulController) (message : string) (i : Intent) :
  can_reply s i = true ->
  exists response : string,
    generate_response rnd now s self message i = Ok response.
Proof.
  intros Hc. unfold generate_response.
  destruct i; cbn [can_reply] in Hc.
  - cbn [response_patterns dict_get String.eqb Ascii.eqb Bool.eqb bind].
    pick_pattern rnd; eexists; reflexivity.
  - cbn [response_patterns dict_get String.eqb Ascii.eqb Bool.eqb bind].
    pick_pattern rnd; eexists; reflexivity.
  - apply andb_prop in Hc as [[Hl Hs]%andb_prop Hb].
    destruct (int_of_value_finite _ Hl) as [load ->].
    destruct (int_of_value_finite _ Hs) as [sun ->].
    destruct (int_of_value_finite _ Hb) as [pct ->].
    cbn [response_patterns dict_get String.eqb Ascii.eqb Bool.eqb bind].
    pick_pattern rnd; eexists; reflexivity.
  - destruct (int_of_value_finite _ Hc) as [pct ->].
    cbn [response_patterns dict_get String.eqb Ascii.eqb Bool.eqb bind].
    pick_pattern rnd; eexists; reflexivity.
  - eexists; reflexivity.
  - destruct (_ <? _)%Z; eexists; reflexivity.
  - cbn [response_patterns dict_get String.eqb Ascii.eqb Bool.eqb bind].
    pick_pattern rnd; eexists; reflexivity.
Qed.

Ltac read_value v :=
  let E := fresh "E" in
  destruct (finite_value v) eqn:E;
  [ let n := fresh "n" in destruct (int_of_value_finite _ E) as [n ->]
  | let e := fresh "e" in
    destruct (int_of_value_not_finite _ E) as [e ->]; eexists; reflexivity ].

(** Otherwise it raises. *)
Lemma generate_response_raises (rnd : nat) (now : datetime) (s : HudState)
    (self : StatefulController) (message : string) (i : Intent) :
  can_reply s i = false ->
  exists e : exn, generate_response rnd now s self message i = Raise e.
Proof.
  intros Hc. unfold generate_response.
  destruct i; cbn [can_reply] in Hc; try discriminate Hc;
    cbn [response_patterns dict_get String.eqb Ascii.eqb Bool.eqb bind];
    pick_pattern rnd; cbn [bind].
  all: try (read_value (load_w s); read_value (sun_w s)).
  all: read_value (battery_pct s); discriminate Hc.
Qed.

Lemma controller_process_message_run (rnd : nat) (t_reply t_log : datetime)
    (message response : string) (self' : StatefulController) (w : World) :
  process_message rnd t_reply t_log (STATE w) (controller w) message
  = Ok (response, self') ->
  controller_process_message rnd t_reply t_log message w
  = (Ok response, mkWorld (STATE w) self' (manager w) (trace w)).
Proof.
  intros H. unfold controller_process_message, abind, get_STATE,
    get_controller, lift, set_controller, ret.
  cbn [STATE controller manager trace]. now rewrite H.
Qed.

(** When the load is infinite, a power query raises before anything is
    logged: no reply is returned and the log stays empty. *)
Lemma process_message_counterexample :
  let s := setattr HudState_default (StateUpdate.set_load_w (Some infinity)) in
  let w := mkWorld s (StatefulController_init 0) (mkManager []) [] in
  intent (analyze_message "power") = power
  /\ process_message_directly 0 0 0 "power" w = (Raise OverflowError, w)
  /\ conversation_history (controller w) = [].
Proof. cbv zeta. repeat split. Qed.

(** C10 (amended): for every message whose reply can be generated (the
    numbers it interpolates are finite), the direct processing path
    returns the reply and adds one entry, made of the message, the reply
    and the time, at the end of the log, the oldest entry being dropped
    when the log was full. *)
Theorem process_message_appends (rnd : nat) (t_reply t_log : datetime)
    (payload_text : string) (w : World) :
  can_reply (STATE w) (intent (analyze_message payload_text)) = true ->
  exists (response : string) (w' : World),
    process_message_directly rnd t_reply t_log payload_text w
    = (Ok (response, analyze_message payload_text), w')
    /\ process_message rnd t_reply t_log (STATE w) (controller w) payload_text
       = Ok (response, controller w')
    /\ generate_response rnd t_reply (STATE w) (controller w) payload_text
         (intent (analyze_message payload_text))
       = Ok response
    /\ ((List.length (conversation_history (controller w)) < 20)%nat ->
        conversation_history (controller w')
        = (conversation_history (controller w)
           ++ [mkEntry t_log payload_text response])%list)
    /\ ((20 <= List.length (conversation_history (controller w)))%nat ->
        conversation_history (controller w')
        = tl (conversation_history (controller w)
              ++ [mkEntry t_log payload_text response])%list)
    /\ system_status (controller w') = system_status (controller w)
    /\ STATE w' = STATE w
    /\ manager w' = manager w
    /\ trace w' = trace w.
Proof.
  intros Hc.
  destruct (generate_response_returns rnd t_reply (STATE w) (controller w)
              payload_text _ Hc) as [response Hr].
  assert (process_message rnd t_reply t_log (STATE w) (controller w) payload_text
          = Ok (response, add_to_history t_log payload_text response (controller w)))
    as Hproc by (unfold process_message; now rewrite Hr).
  exists response. eexists. split.
  - unfold process_message_directly, abind.
    rewrite (controller_process_message_run _ _ _ _ _ _ _ Hproc). reflexivity.
  - cbn [STATE controller manager trace]. split; [exact Hproc|].
    split; [exact Hr|].
    unfold add_to_history. cbn [set_history conversation_history system_status].
    rewrite length_app. cbn [List.length].
    repeat split.
    + intros Hlt. destruct (Nat.ltb_spec 20
        (List.length (conversation_history (controller w)) + 1)); [lia|reflexivity].
    + intros Hge. destruct (Nat.ltb_spec 20
        (List.length (conversation_history (controller w)) + 1)); [reflexivity|lia].
Qed.

End Replies.

Lemma process_message_appends_witness :
  let w := mkWorld HudState_default (StatefulController_init 0)
             (mkManager [1]%nat) [] in
  (can_reply (STATE w) (intent (analyze_message "battery?")) = true
   /\ (List.length (conversation_history (controller w)) < 20)%nat)
  /\ exists (response : string) (w' : World),
       process_message_directly 1 0 5 "battery?" w
       = (Ok (response, mkAnalysis battery 0.9), w')
       /\ conversation_history (controller w') = [mkEntry 5 "battery?" response].
Proof.
  intros w.
  assert ((List.length (conversation_history (controller w)) < 20)%nat) as Hlen
    by (simpl; lia).
  split; [repeat split; trivial|].
  destruct (process_message_appends 1 0 5 "battery?" w eq_refl)
    as (response & w' & Hrun & _ & _ & Hshort & _).
  exists response, w'. split; [exact Hrun | exact (Hshort Hlen)].
Defined.

(** ** Message dispatcher *)

Section Dispatcher.

Import ConnectionManager_.

Lemma broadcasts_app (t1 t2 : list effect) :
  broadcasts (t1 ++ t2) = broadcasts t1 ++ broadcasts t2.
Proof. apply flat_map_app. Qed.

Lemma received_app (ws : WebSocket) (t1 t2 : list effect) :
  received ws (t1 ++ t2) = received ws t1 ++ received ws t2.
Proof. apply flat_map_app. Qed.

Lemma broadcasts_called (message : event) (t : list effect) :
  broadcasts (BroadcastCalled message :: t) = message :: broadcasts t.
Proof. reflexivity. Qed.

Lemma broadcasts_slept (seconds : float) (t : list effect) :
  broadcasts (Slept seconds :: t) = broadcasts t.
Proof. reflexivity. Qed.

Lemma received_called (ws : WebSocket) (message : event) (t : list effect) :
  received ws (BroadcastCalled message :: t) = received ws t.
Proof. reflexivity. Qed.

Lemma received_slept (ws : WebSocket) (seconds : float) (t : list effect) :
  received ws (Slept seconds :: t) = received ws t.
Proof. reflexivity. Qed.

Lemma broadcasts_attempts (net : Network) (message : event)
    (l : list WebSocket) :
  broadcasts (attempts net message l) = [].
Proof. induction l as [|x l IH]; [reflexivity | exact IH]. Qed.

Lemma received_attempts (net : Network) (message : event) (ws : WebSocket)
    (l : list WebSocket) :
  send_ok net ws = true ->
  received ws (attempts net message l)
  = repeat message (count_occ Nat.eq_dec l ws).
Proof.
  intros Hok. induction l as [|x l IH]; [reflexivity|].
  cbn [attempts map received flat_map count_occ].
  fold (attempts net message l). fold (received ws (attempts net message l)).
  rewrite IH. destruct (Nat.eq_dec x ws) as [->|Hne].
  - now rewrite Hok, Nat.eqb_refl.
  - apply Nat.eqb_neq in Hne. rewrite Hne. now destruct (send_ok net x).
Qed.

Lemma count_occ_filter (f : WebSocket -> bool) (ws : WebSocket)
    (l : list WebSocket) :
  f ws = true ->
  count_occ Nat.eq_dec (filter f l) ws = count_occ Nat.eq_dec l ws.
Proof.
  intros Hf. induction l as [|x l IH]; [reflexivity|].
  cbn [filter count_occ]. destruct (Nat.eq_dec x ws) as [->|Hne].
  - rewrite Hf. cbn [count_occ]. destruct (Nat.eq_dec ws ws); [|easy].
    now rewrite IH.
  - destruct (f x); [cbn [count_occ]; destruct (Nat.eq_dec x ws); easy|exact IH].
Qed.

(** A message that is an object of type [user_message] with a string for
    text, when the two prints before the branch succeed. *)
Lemma on_message_user (out : Console) (net1 net2 net3 : Network) (rnd : nat)
    (t_reply t_log : datetime) (ws : WebSocket) (msg : json) (text : string)
    (w : World) :
  out (Received msg) = None ->
  json_get msg "type" = Ok (Some (JStr "user_message")) ->
  json_get msg "text" = Ok (Some (JStr text)) ->
  out (Processing (PyStr.strip text)) = None ->
  PyStr.truthy (PyStr.strip text) = true ->
  on_message out net1 net2 net3 rnd t_reply t_log ws msg w
  = answer_user_message out net1 net2 net3 rnd t_reply t_log
      (PyStr.strip text) w.
Proof.
  intros Hreceived Htype Htext Hprocessing Ht.
  assert (PyStr.truthy text = true) as Hne by (now destruct text).
  unfold on_message, print. rewrite Hreceived, Htype, Htext.
  unfold abind, ret, lift. cbn [json_is_str].
  rewrite String.eqb_refl. cbn [text_or_empty json_truthy]. rewrite Hne.
  cbn [json_strip]. now rewrite Hprocessing, Ht.
Qed.

(** The run of the branch when the reply is generated and printed. *)
Lemma answer_user_message_run (out : Console) (net1 net2 net3 : Network)
    (rnd : nat) (t_reply t_log : datetime) (user_text : string) (w : World)
    (reply : string) (self' : StatefulController) :
  let s' := setattr (STATE w) (StateUpdate.set_last_user_line (Some user_text)) in
  let a0 := active (manager w) in
  let a1 := filter (send_ok net1) a0 in
  let a2 := filter (send_ok net2) a1 in
  let user_line := user_line_event (Some user_text) in
  let bot := bot_reply_event (Some reply) in
  process_message rnd t_reply t_log s' (controller w) user_text
  = Ok (reply, self') ->
  out (BotResponse reply) = None ->
  answer_user_message out net1 net2 net3 rnd t_reply t_log user_text w
  = (Ok tt,
     mkWorld s' self' (mkManager (filter (send_ok net3) a2))
       (trace w
        ++ (BroadcastCalled user_line :: attempts net1 user_line a0)
        ++ (BroadcastCalled clear_center_event
            :: attempts net2 clear_center_event a1)
        ++ Slept 1.5
        :: BroadcastCalled bot :: attempts net3 bot a2)).
Proof.
  cbv zeta. intros Hp Hprinted. unfold answer_user_message.
  unfold abind at 1 2 3. unfold get_STATE, set_STATE.
  cbn [STATE controller manager trace].
  unfold abind at 1. rewrite broadcast_run.
  cbn [STATE controller manager trace active last_user_line setattr].
  unfold abind at 1. rewrite broadcast_run.
  cbn [STATE controller manager trace active].
  unfold abind at 1.
  erewrite controller_process_message_run by exact Hp.
  cbn [STATE controller manager trace active].
  unfold abind at 1. unfold print at 1. rewrite Hprinted.
  unfold ret at 1. unfold abind at 1. unfold asyncio_sleep, emit.
  cbn [STATE controller manager trace active].
  unfold abind at 1. rewrite broadcast_run.
  cbn [STATE controller manager trace active]. unfold print_plain, ret.
  repeat rewrite <- app_assoc. reflexivity.
Qed.

(** With an infinite load, a power query is announced and the centre
    cleared, then reply generation raises: no [bot_reply] is broadcast,
    and the connection that sent the message is deregistered. When the
    console cannot take the text of a message, nothing is broadcast at
    all. *)
Lemma user_message_counterexample :
  let s := setattr HudState_default (StateUpdate.set_load_w (Some infinity)) in
  let w := mkWorld s (StatefulController_init 0) (mkManager [1]%nat) [] in
  let w0 := mkWorld HudState_default (StatefulController_init 0)
              (mkManager [1]%nat) [] in
  let net : Network := fun _ => None in
  let out : Console := fun _ => None in
  let deaf : Console :=
    fun line => match line with
                | Processing _ => Some UnicodeEncodeError
                | _ => None
                end in
  let msg := user_message "power" in
  PyStr.truthy (PyStr.strip "power") = true
  /\ fst (on_message out net net net 0 0 0 1%nat msg w) = Raise OverflowError
  /\ broadcasts (trace (snd (on_message out net net net 0 0 0 1%nat msg w)))
     = [user_line_event (Some "power"%string); clear_center_event]
  /\ fst (websocket_step out net net net 0 0 0 1%nat msg w) = Ok tt
  /\ broadcasts (trace (snd (websocket_step out net net net 0 0 0 1%nat msg w)))
     = [user_line_event (Some "power"%string); clear_center_event]
  /\ active (manager (snd (websocket_step out net net net 0 0 0 1%nat msg w)))
     = []
  /\ fst (on_message deaf net net net 0 0 0 1%nat (user_message "hello") w0)
     = Raise UnicodeEncodeError
  /\ broadcasts
       (trace (snd (on_message deaf net net net 0 0 0 1%nat
                      (user_message "hello") w0)))
     = [].
Proof. cbv zeta. repeat split. Qed.

(** C8 (amended): for a user message (a JSON object of type
    [user_message]) whose text is a string that is not empty once
    trimmed, when the prints of the message, of the text and of the reply
    succeed and the reply can be generated (the numbers it interpolates
    are finite), the dispatcher
    calls broadcast three times: with the [user_line] event carrying the
    text, with [clear_center], and, after sleeping 1.5, with the
    [bot_reply] event carrying the generated reply. A connection on which
    the three sends succeed stays registered and receives the three events
    in that order, once for each time it is registered. *)
Theorem user_message_broadcasts (out : Console) (net1 net2 net3 : Network)
    (rnd : nat) (t_reply t_log : datetime) (ws : WebSocket) (msg : json)
    (text : string) (w : World) :
  let user_text := PyStr.strip text in
  let user_line := user_line_event (Some user_text) in
  let a0 := active (manager w) in
  let a1 := filter (send_ok net1) a0 in
  let a2 := filter (send_ok net2) a1 in
  json_get msg "type" = Ok (Some (JStr "user_message"%string)) ->
  json_get msg "text" = Ok (Some (JStr text)) ->
  PyStr.truthy user_text = true ->
  out (Received msg) = None ->
  out (Processing user_text) = None ->
  (forall bot_response : string, out (BotResponse bot_response) = None) ->
  can_reply (STATE w) (intent (analyze_message user_text)) = true ->
  exists (reply : string) (w' : World),
    let bot := bot_reply_event (Some reply) in
    on_message out net1 net2 net3 rnd t_reply t_log ws msg w = (Ok tt, w')
    /\ last_user_line (STATE w') = Some user_text
    /\ generate_response rnd t_reply (STATE w') (controller w) user_text
         (intent (analyze_message user_text))
       = Ok reply
    /\ broadcasts (trace w')
       = broadcasts (trace w) ++ [user_line; clear_center_event; bot]
    /\ trace w'
       = trace w
         ++ (BroadcastCalled user_line :: attempts net1 user_line a0)
         ++ (BroadcastCalled clear_center_event
             :: attempts net2 clear_center_event a1)
         ++ Slept 1.5
         :: BroadcastCalled bot :: attempts net3 bot a2
    /\ (forall ch : WebSocket,
          send_ok net1 ch = true -> send_ok net2 ch = true ->
          send_ok net3 ch = true ->
          let n := count_occ Nat.eq_dec a0 ch in
          count_occ Nat.eq_dec (active (manager w')) ch = n
          /\ received ch (trace w')
             = received ch (trace w)
               ++ repeat user_line n ++ repeat clear_center_event n
               ++ repeat bot n).
Proof.
  cbv zeta. intros Htype Htext Ht Hreceived Hprocessing Hbot Hc.
  set (user_text := PyStr.strip text) in *.
  set (s' := setattr (STATE w) (StateUpdate.set_last_user_line (Some user_text))).
  assert (can_reply s' (intent (analyze_message user_text)) = true) as Hc'
    by (destruct (intent (analyze_message user_text)); exact Hc).
  destruct (generate_response_returns rnd t_reply s' (controller w) user_text
              _ Hc') as [reply Hr].
  assert (process_message rnd t_reply t_log s' (controller w) user_text
          = Ok (reply, add_to_history t_log user_text reply (controller w)))
    as Hp by (unfold process_message; now rewrite Hr).
  exists reply. eexists. split.
  - rewrite (on_message_user out net1 net2 net3 rnd t_reply t_log ws msg text w
               Hreceived Htype Htext Hprocessing Ht).
    exact (answer_user_message_run out net1 net2 net3 rnd t_reply t_log
             user_text w reply _ Hp (Hbot _)).
  - cbn [STATE controller manager trace active].
    split; [reflexivity|]. split; [exact Hr|]. split; [|split; [reflexivity|]].
    + repeat first [ rewrite broadcasts_app
                   | rewrite broadcasts_called
                   | rewrite broadcasts_slept
                   | rewrite broadcasts_attempts ].
      reflexivity.
    + intros ch H1 H2 H3. split.
      * now rewrite !count_occ_filter.
      * repeat first [ rewrite received_app
                     | rewrite received_called
                     | rewrite received_slept
                     | rewrite received_attempts by assumption
                     | rewrite count_occ_filter by assumption ].
        reflexivity.
Qed.

End Dispatcher.

Lemma user_message_broadcasts_witness :
  let w := mkWorld HudState_default (StatefulController_init 0)
             (mkManager [1; 2]%nat) [] in
  let net : Network := fun _ => None in
  let out : Console := fun _ => None in
  let msg := user_message "  hello " in
  (json_get msg "type" = Ok (Some (JStr "user_message"%string))
   /\ json_get msg "text" = Ok (Some (JStr "  hello "%string))
   /\ PyStr.truthy (PyStr.strip "  hello ") = true
   /\ out (Received msg) = None
   /\ out (Processing "hello") = None
   /\ (forall bot_response : string, out (BotResponse bot_response) = None)
   /\ can_reply (STATE w) (intent (analyze_message "hello")) = true
   /\ send_ok net 2%nat = true)
  /\ exists (reply : string) (w' : World),
       on_message out net net net 0 0 0 1%nat msg w = (Ok tt, w')
       /\ broadcasts (trace w')
          = [ user_line_event (Some "hello"%string); clear_center_event;
              bot_reply_event (Some reply) ]
       /\ received 2%nat (trace w')
          = [ user_line_event (Some "hello"%string); clear_center_event;
              bot_reply_event (Some reply) ].
Proof.
  intros w net out msg. split; [repeat split|].
  destruct (user_message_broadcasts out net net net 0 0 0 1%nat msg
              "  hello " w eq_refl eq_refl eq_refl eq_refl eq_refl
              (fun _ => eq_refl) eq_refl)
    as (reply & w' & Hrun & _ & _ & Hcalls & _ & Hch).
  exists reply, w'. split; [exact Hrun|]. split; [exact Hcalls|].
  exact (proj2 (Hch 2%nat eq_refl eq_refl eq_refl)).
Defined.

(** ** Connection registry *)

Section Registry.

Import ConnectionManager_.

Lemma existsb_eqb_In (ws : WebSocket) (l : list WebSocket) :
  existsb (Nat.eqb ws) l = true <-> In ws l.
Proof.
  rewrite existsb_exists. split.
  - intros (x & Hin & ->%Nat.eqb_eq). exact Hin.
  - intros Hin. exists ws. split; [exact Hin | apply Nat.eqb_refl].
Qed.

Lemma count_occ_list_remove (ws ch : WebSocket) (l : list WebSocket) :
  count_occ Nat.eq_dec (list_remove ws l) ch
  = if Nat.eqb ch ws then Nat.pred (count_occ Nat.eq_dec l ws)
    else count_occ Nat.eq_dec l ch.
Proof.
  induction l as [|x l IH]; cbn [list_remove count_occ].
  - now destruct (Nat.eqb ch ws).
  - destruct (Nat.eqb_spec x ws) as [->|Hx].
    + destruct (Nat.eq_dec ws ws) as [_|]; [|easy]. cbn [Nat.pred].
      destruct (Nat.eqb_spec ch ws) as [->|Hc]; [reflexivity|].
      destruct (Nat.eq_dec ws ch); [congruence | reflexivity].
    + cbn [count_occ]. rewrite IH.
      destruct (Nat.eq_dec x ws) as [|_]; [easy|].
      destruct (Nat.eqb_spec ch ws) as [->|Hc].
      * destruct (Nat.eq_dec x ws); [easy | reflexivity].
      * reflexivity.
Qed.

Lemma list_remove_others (ws : WebSocket) (l : list WebSocket) :
  filter (fun x => negb (Nat.eqb x ws)) (list_remove ws l)
  = filter (fun x => negb (Nat.eqb x ws)) l.
Proof.
  induction l as [|x l IH]; [reflexivity|]. cbn [list_remove filter].
  destruct (Nat.eqb x ws) eqn:E; cbn [negb]; [reflexivity|].
  cbn [filter]. rewrite E. cbn [negb]. now rewrite IH.
Qed.

Lemma list_remove_NoDup (ws : WebSocket) (l : list WebSocket) :
  NoDup l -> NoDup (list_remove ws l) /\ ~ In ws (list_remove ws l).
Proof.
  intros Hnd. assert (forall ch, count_occ Nat.eq_dec (list_remove ws l) ch <= 1)%nat
    as Hle.
  { intros ch. rewrite count_occ_list_remove.
    rewrite (NoDup_count_occ Nat.eq_dec) in Hnd.
    pose proof (Hnd ws). pose proof (Hnd ch).
    destruct (Nat.eqb ch ws); lia. }
  split.
  - now apply (NoDup_count_occ Nat.eq_dec).
  - rewrite (count_occ_not_In Nat.eq_dec), count_occ_list_remove, Nat.eqb_refl.
    rewrite (NoDup_count_occ Nat.eq_dec) in Hnd. pose proof (Hnd ws). lia.
Qed.

Lemma list_remove_first (ws : WebSocket) (before rest : list WebSocket) :
  ~ In ws before -> list_remove ws (before ++ ws :: rest) = before ++ rest.
Proof.
  induction before as [|x before IH]; intros Hnot; cbn [app list_remove].
  - now rewrite Nat.eqb_refl.
  - destruct (Nat.eqb_spec x ws) as [->|_]; [elim Hnot; now left|].
    rewrite IH; [reflexivity|]. intros Hin. apply Hnot. now right.
Qed.

(** X1: [disconnect] returns normally and touches only the registry: it
    takes out one registration of the connection, the first, and leaves
    the other connections and their order as they were; when the connection
    is not registered nothing changes. *)
Theorem disconnect_removes_one (ws : WebSocket) (w : World) :
  exists w' : World,
    disconnect ws w = (Ok tt, w')
    /\ STATE w' = STATE w /\ controller w' = controller w
    /\ trace w' = trace w
    /\ (forall ch : WebSocket,
          count_occ Nat.eq_dec (active (manager w')) ch
          = if Nat.eqb ch ws
            then Nat.pred (count_occ Nat.eq_dec (active (manager w)) ws)
            else count_occ Nat.eq_dec (active (manager w)) ch)
    /\ filter (fun x => negb (Nat.eqb x ws)) (active (manager w'))
       = filter (fun x => negb (Nat.eqb x ws)) (active (manager w))
    /\ (~ In ws (active (manager w)) -> w' = w)
    /\ (NoDup (active (manager w)) -> ~ In ws (active (manager w')))
    /\ (forall before rest : list WebSocket,
          active (manager w) = before ++ ws :: rest -> ~ In ws before ->
          active (manager w') = before ++ rest).
Proof.
  unfold disconnect, abind, get_active.
  destruct (existsb (Nat.eqb ws) (active (manager w))) eqn:E.
  - eexists. split; [reflexivity|]. cbn [STATE controller manager trace active].
    do 3 (split; [reflexivity|]). split; [|split; [|split; [|split]]].
    + intros ch. apply count_occ_list_remove.
    + apply list_remove_others.
    + intros Hnot. apply existsb_eqb_In in E. contradiction.
    + intros Hnd. now apply list_remove_NoDup.
    + intros before rest -> Hnot. now apply list_remove_first.
  - assert (~ In ws (active (manager w))) as Hnot.
    { intros Hin%existsb_eqb_In. congruence. }
    exists w. split; [reflexivity|]. do 3 (split; [reflexivity|]).
    split; [|split; [reflexivity | split; [reflexivity | split; [now intros _|]]]].
    + intros ch. destruct (Nat.eqb_spec ch ws) as [->|]; [|reflexivity].
      apply (count_occ_not_In Nat.eq_dec) in Hnot. now rewrite Hnot.
    + intros before rest Hsplit _. elim Hnot. rewrite Hsplit.
      apply in_or_app. right. now left.
Qed.

Lemma disconnect_removes_one_witness :
  let w := mkWorld HudState_default (StatefulController_init 0)
             (mkManager [1; 2; 3]%nat) [] in
  let twice := mkWorld HudState_default (StatefulController_init 0)
                 (mkManager [2; 1; 3; 1]%nat) [] in
  (~ In 4%nat (active (manager w)) /\ NoDup (active (manager w))
   /\ active (manager twice) = ([2] ++ 1 :: [3; 1])%nat
   /\ ~ In 1%nat [2%nat])
  /\ (exists w4 : World, disconnect 4%nat w = (Ok tt, w4) /\ w4 = w)
  /\ (exists w2 : World,
        disconnect 2%nat w = (Ok tt, w2) /\ ~ In 2%nat (active (manager w2)))
  /\ (exists w1 : World,
        disconnect 1%nat twice = (Ok tt, w1)
        /\ active (manager w1) = [2; 3; 1]%nat).
Proof.
  intros w twice.
  assert (~ In 4%nat (active (manager w))) as Habsent
    by (simpl; intros H; repeat destruct H as [H|H]; try discriminate H; exact H).
  assert (NoDup (active (manager w))) as Hnd.
  { repeat (constructor;
              [ simpl; intros H; repeat destruct H as [H|H];
                try discriminate H; exact H | ]).
    constructor. }
  assert (~ In 1%nat [2%nat]) as Hfirst
    by (simpl; intros H; repeat destruct H as [H|H]; try discriminate H; exact H).
  split; [repeat split; trivial|]. split; [|split].
  - destruct (disconnect_removes_one 4%nat w)
      as (w4 & Hrun & _ & _ & _ & _ & _ & Hsame & _).
    exists w4. split; [exact Hrun | exact (Hsame Habsent)].
  - destruct (disconnect_removes_one 2%nat w)
      as (w2 & Hrun & _ & _ & _ & _ & _ & _ & Hgone & _).
    exists w2. split; [exact Hrun | exact (Hgone Hnd)].
  - destruct (disconnect_removes_one 1%nat twice)
      as (w1 & Hrun & _ & _ & _ & _ & _ & _ & _ & Hsplit).
    exists w1. split; [exact Hrun|].
    exact (Hsplit [2%nat] [3; 1]%nat eq_refl Hfirst).
Defined.

Lemma disconnect_run (ws : WebSocket) (w : World) :
  disconnect ws w
  = (Ok tt,
     mkWorld (STATE w) (controller w)
       (mkManager (if existsb (Nat.eqb ws) (active (manager w))
                   then list_remove ws (active (manager w))
                   else active (manager w)))
       (trace w)).
Proof.
  unfold disconnect, abind, get_active.
  destruct (existsb (Nat.eqb ws) (active (manager w))); [reflexivity|].
  now destruct w as [s c [a] t].
Qed.

Lemma send_state_run (net : Network) (ws : WebSocket) (w : World) :
  send_state net ws w
  = (match net ws with None => Ok tt | Some e => Raise e end,
     mkWorld (STATE w) (controller w) (manager w)
       (trace w ++ [Send ws (state_event (STATE w)) (send_ok net ws)])).
Proof.
  unfold send_state, abind, get_STATE, send_json, send_ok, emit, lift.
  now destruct (net ws).
Qed.

Lemma received_send (ch ws : WebSocket) (message : event) (ok : bool) :
  received ch [Send ws message ok]
  = if ok && Nat.eqb ws ch then [message] else [].
Proof. cbn. destruct ok; [now destruct (Nat.eqb ws ch) | reflexivity]. Qed.

(** X2: [connect] first awaits the handshake: when [accept] raises, the
    exception reaches the caller and nothing is registered nor sent. When
    it succeeds, [connect] registers the connection after the ones
    already there and sends the current state to it and to no other
    connection; when that send fails the exception reaches the caller and
    the connection stays registered. *)
Theorem connect_registers (accepted : option exn) (net : Network)
    (ws : WebSocket) (w : World) :
  exists w' : World,
    snd (connect accepted net ws w) = w'
    /\ STATE w' = STATE w /\ controller w' = controller w
    /\ broadcasts (trace w') = broadcasts (trace w)
    /\ (forall ch : WebSocket,
          ch <> ws -> received ch (trace w') = received ch (trace w))
    /\ (forall e : exn,
          accepted = Some e ->
          fst (connect accepted net ws w) = Raise e /\ w' = w)
    /\ (accepted = None ->
        active (manager w') = active (manager w) ++ [ws]
        /\ (net ws = None ->
            fst (connect accepted net ws w) = Ok tt
            /\ received ws (trace w')
               = received ws (trace w) ++ [state_event (STATE w)])
        /\ (forall e : exn,
              net ws = Some e ->
              fst (connect accepted net ws w) = Raise e
              /\ received ws (trace w') = received ws (trace w))).
Proof.
  eexists. split; [reflexivity|].
  unfold connect, accept. destruct accepted as [e0|].
  - cbn. do 4 (split; [reflexivity|]).
    split; [now intros e [= <-] | discriminate].
  - unfold abind, ret, get_active, set_active.
    cbn [STATE controller manager trace active]. rewrite send_state_run.
    cbn [fst snd STATE controller manager trace active].
    do 2 (split; [reflexivity|]). split; [|split; [|split; [discriminate|]]].
    + rewrite broadcasts_app. cbn. now rewrite app_nil_r.
    + intros ch Hne. rewrite received_app, received_send.
      apply Nat.eqb_neq in Hne. rewrite Nat.eqb_sym, Hne, andb_false_r.
      now rewrite app_nil_r.
    + intros _. split; [reflexivity|]. split.
      * intros Hok. unfold send_ok. rewrite Hok. split; [reflexivity|].
        now rewrite received_app, received_send, Nat.eqb_refl.
      * intros e He. unfold send_ok. rewrite He. split; [reflexivity|].
        rewrite received_app, received_send. cbn. now rewrite app_nil_r.
Qed.

Lemma connect_registers_witness :
  let w := mkWorld HudState_default (StatefulController_init 0)
             (mkManager [1]%nat) [] in
  let net : Network :=
    fun ws => if Nat.eqb ws 2 then Some WebSocketDisconnect else None in
  (net 2%nat = Some WebSocketDisconnect /\ 1%nat <> 2%nat)
  /\ fst (connect None net 2%nat w) = Raise WebSocketDisconnect
  /\ active (manager (snd (connect None net 2%nat w))) = [1; 2]%nat
  /\ received 1%nat (trace (snd (connect None net 2%nat w))) = []
  /\ connect (Some RuntimeError) net 2%nat w = (Raise RuntimeError, w).
Proof.
  intros w net.
  assert (1%nat <> 2%nat) as Hne by discriminate.
  split; [split; [reflexivity | exact Hne]|].
  destruct (connect_registers None net 2%nat w)
    as (w' & <- & _ & _ & _ & Hothers & _ & Hopen).
  destruct (Hopen eq_refl) as (Hactive & _ & Hfail).
  split; [exact (proj1 (Hfail _ eq_refl))|].
  split; [exact Hactive|]. split; [exact (Hothers 1%nat Hne)|].
  destruct (connect_registers (Some RuntimeError) net 2%nat w)
    as (w0 & Hsnd & _ & _ & _ & _ & Hrefused & _).
  destruct (Hrefused _ eq_refl) as [Hfst Hsame].
  rewrite (surjective_pairing (connect (Some RuntimeError) net 2%nat w)).
  now rewrite Hfst, Hsnd, Hsame.
Defined.

(** X3: a [request_state] message (its first print succeeding) makes the
    server try one send, of the current state, on the requesting
    connection: broadcast is not called, no other connection receives
    anything, and the state and the controller are unchanged. When the
    send succeeds the registry is unchanged too; when it fails the
    handler deregisters the requester as [disconnect] does. *)
Theorem request_state_private (out : Console) (net1 net2 net3 : Network)
    (rnd : nat) (t_reply t_log : datetime) (ws : WebSocket) (msg : json)
    (w : World) :
  out (Received msg) = None ->
  json_get msg "type" = Ok (Some (JStr "request_state"%string)) ->
  exists w' : World,
    websocket_step out net1 net2 net3 rnd t_reply t_log ws msg w = (Ok tt, w')
    /\ STATE w' = STATE w /\ controller w' = controller w
    /\ trace w'
       = trace w ++ [Send ws (state_event (STATE w)) (send_ok net1 ws)]
    /\ broadcasts (trace w') = broadcasts (trace w)
    /\ (forall ch : WebSocket,
          ch <> ws -> received ch (trace w') = received ch (trace w))
    /\ (net1 ws = None ->
        manager w' = manager w
        /\ received ws (trace w')
           = received ws (trace w) ++ [state_event (STATE w)])
    /\ (forall e : exn,
          net1 ws = Some e ->
          fst (on_message out net1 net2 net3 rnd t_reply t_log ws msg w)
          = Raise e
          /\ manager w' = manager (snd (disconnect ws w))
          /\ received ws (trace w') = received ws (trace w)
          /\ (NoDup (active (manager w)) -> ~ In ws (active (manager w')))).
Proof.
  intros Hreceived Htype.
  assert (on_message out net1 net2 net3 rnd t_reply t_log ws msg w
          = send_state net1 ws w) as Hrun.
  { unfold on_message, print. rewrite Hreceived, Htype.
    unfold abind, ret, lift, print_plain. cbn [json_is_str].
    change (String.eqb "request_state" "user_message") with false.
    now rewrite String.eqb_refl. }
  unfold websocket_step, try_except. rewrite Hrun, send_state_run.
  unfold send_ok. destruct (net1 ws) as [e|] eqn:Enet.
  - unfold abind, print_plain, ret. rewrite !disconnect_run.
    eexists. split; [reflexivity|].
    cbn [fst snd STATE controller manager trace active].
    do 3 (split; [reflexivity|]). split; [|split; [|split; [discriminate|]]].
    + rewrite broadcasts_app. cbn. now rewrite app_nil_r.
    + intros ch Hne. rewrite received_app, received_send. cbn [andb].
      now rewrite app_nil_r.
    + intros e' [= <-]. do 2 (split; [reflexivity|]). split.
      * rewrite received_app, received_send. cbn [andb]. apply app_nil_r.
      * intros Hnd. destruct (existsb (Nat.eqb ws) (active (manager w))) eqn:E.
        -- now apply list_remove_NoDup.
        -- intros Hin%existsb_eqb_In. congruence.
  - eexists. split; [reflexivity|].
    cbn [fst snd STATE controller manager trace active].
    do 3 (split; [reflexivity|]). split; [|split; [|split; [|discriminate]]].
    + rewrite broadcasts_app. cbn. now rewrite app_nil_r.
    + intros ch Hne. rewrite received_app, received_send.
      apply Nat.eqb_neq in Hne. rewrite Nat.eqb_sym, Hne, andb_false_r.
      now rewrite app_nil_r.
    + intros _. split; [reflexivity|].
      now rewrite received_app, received_send, Nat.eqb_refl.
Qed.

Lemma request_state_private_witness :
  let w := mkWorld HudState_default (StatefulController_init 0)
             (mkManager [1; 2]%nat) [] in
  let net : Network := fun _ => None in
  let down : Network := fun _ => Some WebSocketDisconnect in
  let out : Console := fun _ => None in
  let msg := JObj [("type", JStr "request_state")]%string in
  (out (Received msg) = None
   /\ json_get msg "type" = Ok (Some (JStr "request_state"%string))
   /\ 1%nat <> 2%nat /\ net 2%nat = None
   /\ down 2%nat = Some WebSocketDisconnect
   /\ NoDup (active (manager w)))
  /\ (exists w' : World,
        websocket_step out net net net 0 0 0 2%nat msg w = (Ok tt, w')
        /\ received 2%nat (trace w') = [state_event HudState_default]
        /\ received 1%nat (trace w') = []
        /\ manager w' = manager w)
  /\ (exists w' : World,
        websocket_step out down net net 0 0 0 2%nat msg w = (Ok tt, w')
        /\ received 2%nat (trace w') = []
        /\ ~ In 2%nat (active (manager w'))).
Proof.
  intros w net down out msg.
  assert (1%nat <> 2%nat) as Hne by discriminate.
  assert (NoDup (active (manager w))) as Hnd.
  { repeat (constructor;
              [ simpl; intros H; repeat destruct H as [H|H];
                try discriminate H; exact H | ]).
    constructor. }
  split; [repeat split; trivial|]. split.
  - destruct (request_state_private out net net net 0 0 0 2%nat msg w
                eq_refl eq_refl)
      as (w' & Hrun & _ & _ & _ & _ & Hothers & Hmine & _).
    exists w'. split; [exact Hrun|].
    split; [exact (proj2 (Hmine eq_refl))|].
    split; [exact (Hothers 1%nat Hne) | exact (proj1 (Hmine eq_refl))].
  - destruct (request_state_private out down net net 0 0 0 2%nat msg w
                eq_refl eq_refl)
      as (w' & Hrun & _ & _ & _ & _ & _ & _ & Hfail).
    destruct (Hfail _ eq_refl) as (_ & _ & Hnone & Hgone).
    exists w'. split; [exact Hrun|]. split; [exact Hnone | exact (Hgone Hnd)].
Defined.

Lemma received_attempts_none (net : Network) (message : event)
    (ws : WebSocket) (l : list WebSocket) :
  send_ok net ws = false \/ ~ In ws l ->
  received ws (attempts net message l) = [].
Proof.
  intros H. induction l as [|x l IH]; [reflexivity|].
  change (attempts net message (x :: l))
    with ([Send x message (send_ok net x)] ++ attempts net message l).
  rewrite received_app, received_send, IH.
  - destruct (Nat.eqb_spec x ws) as [->|]; [|now rewrite andb_false_r].
    destruct H as [->|Hnot]; [reflexivity|]. elim Hnot. now left.
  - destruct H as [H|H]; [now left|]. right. intros Hin. apply H. now right.
Qed.

(** X4: a connection whose send fails in a broadcast receives nothing
    from it, is not registered afterwards, and receives nothing from the
    next broadcast either, whatever the outcome of a send on it would be
    then: a failed send is not retried. *)
Theorem failed_send_not_retried (net1 net2 : Network) (m1 m2 : event)
    (ws : WebSocket) (w : World) :
  send_ok net1 ws = false ->
  let w1 := snd (broadcast net1 m1 w) in
  let w2 := snd (broadcast net2 m2 w1) in
  received ws (trace w1) = received ws (trace w)
  /\ ~ In ws (active (manager w1))
  /\ received ws (trace w2) = received ws (trace w)
  /\ ~ In ws (active (manager w2)).
Proof.
  intros Hfail. cbv zeta. rewrite !broadcast_run.
  cbn [snd STATE controller manager trace active].
  assert (~ In ws (filter (send_ok net1) (active (manager w)))) as Hgone
    by (intros [_ Hok]%filter_In; congruence).
  repeat split.
  - rewrite received_app, received_called, received_attempts_none by now left.
    apply app_nil_r.
  - exact Hgone.
  - rewrite !received_app, !received_called.
    rewrite (received_attempts_none net1) by now left.
    rewrite (received_attempts_none net2) by now right.
    now rewrite !app_nil_r.
  - intros [Hin _]%filter_In. contradiction.
Qed.

Lemma failed_send_not_retried_witness :
  let w := mkWorld HudState_default (StatefulController_init 0)
             (mkManager [1; 2]%nat) [] in
  let net1 : Network :=
    fun ws => if Nat.eqb ws 2 then Some WebSocketDisconnect else None in
  let net2 : Network := fun _ => None in
  let w2 := snd (broadcast net2 clear_center_event
                   (snd (broadcast net1 clear_center_event w))) in
  send_ok net1 2%nat = false
  /\ received 2%nat (trace w2) = []
  /\ ~ In 2%nat (active (manager w2)).
Proof.
  intros w net1 net2 w2. split; [reflexivity|].
  destruct (failed_send_not_retried net1 net2 clear_center_event
              clear_center_event 2%nat w eq_refl) as (_ & _ & Hnone & Hgone).
  split; [exact Hnone | exact Hgone].
Defined.

End Registry.

(** ** Messages that are ignored or fail *)

Section Receive.

Import ConnectionManager_.
Local Open Scope string_scope.

Lemma lstrip_head (s : string) :
  PyStr.lstrip s = ""
  \/ exists c t, PyStr.lstrip s = String c t /\ PyStr.isspace c = false.
Proof.
  induction s as [|c s IH]; [now left|]. cbn [PyStr.lstrip].
  destruct (PyStr.isspace c) eqn:E; [exact IH|]. right. now exists c, s.
Qed.

Lemma lstrip_empty_blank (s : string) :
  PyStr.lstrip s = "" <-> blank s = true.
Proof.
  unfold blank. induction s as [|c s IH]; [easy|].
  cbn [PyStr.lstrip list_ascii_of_string forallb].
  destruct (PyStr.isspace c); [exact IH|]. easy.
Qed.

Lemma strip_empty_blank (s : string) :
  PyStr.truthy (PyStr.strip s) = false <-> blank s = true.
Proof.
  rewrite <- lstrip_empty_blank. unfold PyStr.strip.
  destruct (lstrip_head s) as [->|(c & t & -> & Hc)]; [easy|].
  cbn [PyStr.rstrip]. rewrite Hc.
  destruct (PyStr.rstrip t); easy.
Qed.

Lemma no_text_strip (text : option json) :
  no_text text = true -> json_strip (text_or_empty text) = Ok "".
Proof.
  destruct text as [[|b|n|f|s|items|items]|]; cbn [no_text text_or_empty];
    try (intros ->%negb_true_iff; reflexivity); [|reflexivity].
  intros Hb. cbn [json_truthy].
  destruct (PyStr.truthy s); [|reflexivity]. cbn [json_strip].
  apply strip_empty_blank in Hb. now destruct (PyStr.strip s).
Qed.

(** X5: once its first print succeeds, a message that is a JSON object is
    ignored in two cases: its type is [user_message] and its text is
    missing, false or made of whitespace only; or its type is neither
    [user_message] nor [request_state] (or is missing) and the print of
    that type succeeds. The handler then returns and nothing changes,
    nothing is sent, nothing is logged. A message that is not a JSON
    object is not ignored: handling it raises [AttributeError]. *)
Theorem ignored_messages (out : Console) (net1 net2 net3 : Network)
    (rnd : nat) (t_reply t_log : datetime) (ws : WebSocket) (msg : json)
    (w : World) :
  out (Received msg) = None ->
  (forall mtype : option json,
     json_get msg "type" = Ok mtype ->
     (json_is_str mtype "user_message" = true
      /\ (exists text, json_get msg "text" = Ok text /\ no_text text = true)
      /\ out (Processing "") = None)
     \/ (json_is_str mtype "user_message" = false
         /\ json_is_str mtype "request_state" = false
         /\ out (UnknownType mtype) = None) ->
     on_message out net1 net2 net3 rnd t_reply t_log ws msg w = (Ok tt, w))
  /\ ((forall items, msg <> JObj items) ->
      on_message out net1 net2 net3 rnd t_reply t_log ws msg w
      = (Raise AttributeError, w)).
Proof.
  intros Hreceived. split.
  - intros mtype Htype [(Hu & (text & Htext & Hno) & Hp)|(Hu & Hr & Hp)];
      unfold on_message, print; rewrite Hreceived, Htype;
      unfold abind, ret, lift; rewrite Hu.
    + rewrite Htext, (no_text_strip _ Hno), Hp. reflexivity.
    + now rewrite Hr, Hp.
  - intros Hnot. unfold on_message, print. rewrite Hreceived.
    unfold abind, ret, lift.
    destruct msg; try reflexivity. now elim (Hnot items).
Qed.

Lemma ignored_messages_witness :
  let w := mkWorld HudState_default (StatefulController_init 0)
             (mkManager [1]%nat) [] in
  let net : Network := fun _ => None in
  let out : Console := fun _ => None in
  let msg := user_message "   " in
  (out (Received msg) = None
   /\ json_get msg "type" = Ok (Some (JStr "user_message"))
   /\ json_is_str (Some (JStr "user_message")) "user_message" = true
   /\ json_get msg "text" = Ok (Some (JStr "   "))
   /\ no_text (Some (JStr "   ")) = true
   /\ out (Processing "") = None
   /\ out (Received (JArr [])) = None
   /\ (forall items, JArr [] <> JObj items))
  /\ on_message out net net net 0 0 0 1%nat msg w = (Ok tt, w)
  /\ on_message out net net net 0 0 0 1%nat (JArr []) w
     = (Raise AttributeError, w).
Proof.
  intros w net out msg.
  assert (forall items, JArr [] <> JObj items) as Hlist by discriminate.
  split; [repeat split; trivial|]. split.
  - apply (proj1 (ignored_messages out net net net 0 0 0 1%nat msg w eq_refl)
             (Some (JStr "user_message")) eq_refl).
    left. split; [reflexivity|]. split; [|reflexivity].
    exists (Some (JStr "   ")). split; reflexivity.
  - exact (proj2 (ignored_messages out net net net 0 0 0 1%nat (JArr []) w
                    eq_refl) Hlist).
Defined.

Lemma controller_process_message_raise (rnd : nat) (t_reply t_log : datetime)
    (message : string) (e : exn) (w : World) :
  process_message rnd t_reply t_log (STATE w) (controller w) message = Raise e ->
  controller_process_message rnd t_reply t_log message w = (Raise e, w).
Proof.
  intros H. unfold controller_process_message, abind, get_STATE,
    get_controller, lift. now rewrite H.
Qed.

End Receive.

(** ** States between requests *)

Section Steady.

Import ConnectionManager_.

Lemma filter_true {A : Type} (l : list A) : filter (fun _ => true) l = l.
Proof. induction l as [|x l IH]; [reflexivity | cbn; now rewrite IH]. Qed.

Lemma filter_twice {A : Type} (f g : A -> bool) (l : list A) :
  filter g (filter f l) = filter (fun x => f x && g x) l.
Proof.
  induction l as [|x l IH]; [reflexivity|]. cbn [filter].
  destruct (f x); cbn [filter andb]; [destruct (g x)|]; now rewrite IH.
Qed.

Lemma narrows_refl (w : World) : narrows w w.
Proof.
  split; [reflexivity|]. split; [|now exists []].
  exists (fun _ => true). now rewrite filter_true.
Qed.

Lemma narrows_trans (w1 w2 w3 : World) :
  narrows w1 w2 -> narrows w2 w3 -> narrows w1 w3.
Proof.
  intros (Hp1 & [k1 Ha1] & [e1 Hc1]) (Hp2 & [k2 Ha2] & [e2 Hc2]).
  split; [congruence|]. split.
  - eexists. rewrite Ha2, Ha1. apply filter_twice.
  - exists (e1 ++ e2). rewrite Hc2, Hc1. unfold add_all.
    now rewrite fold_left_app.
Qed.

(** A change of the trace alone. *)
Lemma narrows_trace (w : World) (t : list effect) :
  narrows w (mkWorld (STATE w) (controller w) (manager w) t).
Proof.
  split; [reflexivity|]. split; [|now exists []].
  exists (fun _ => true). cbn [manager]. now rewrite filter_true.
Qed.

Lemma keeps_ret {A : Type} (a : A) : keeps (ret a).
Proof. intros w. apply narrows_refl. Qed.

Lemma keeps_lift {A : Type} (r : result A) : keeps (lift r).
Proof. intros w. apply narrows_refl. Qed.

Lemma keeps_print (out : Console) (line : printed) : keeps (print out line).
Proof. unfold print. destruct (out line); [apply keeps_lift | apply keeps_ret]. Qed.

Lemma keeps_bind {A B : Type} (m : action A) (k : A -> action B) :
  keeps m -> (forall a, keeps (k a)) -> keeps (abind m k).
Proof.
  intros Hm Hk w. unfold abind. specialize (Hm w).
  destruct (m w) as [[a|e] w1]; cbn [snd] in *; [|exact Hm].
  exact (narrows_trans _ _ _ Hm (Hk a w1)).
Qed.

Lemma keeps_broadcast (net : Network) (message : event) :
  keeps (broadcast net message).
Proof.
  intros w. rewrite broadcast_run. cbn [snd].
  split; [reflexivity|]. split; [|now exists []].
  now exists (send_ok net).
Qed.

Lemma keeps_send_state (net : Network) (ws : WebSocket) :
  keeps (send_state net ws).
Proof. intros w. rewrite send_state_run. apply narrows_trace. Qed.

Lemma process_message_inv (rnd : nat) (t_reply t_log : datetime)
    (s : HudState) (self self' : StatefulController) (message reply : string) :
  process_message rnd t_reply t_log s self message = Ok (reply, self') ->
  self' = add_to_history t_log message reply self.
Proof.
  unfold process_message, bind.
  destruct (generate_response _ _ _ _ _ _); [|discriminate].
  now intros [= <- <-].
Qed.

Lemma keeps_controller_process_message (rnd : nat) (t_reply t_log : datetime)
    (message : string) :
  keeps (controller_process_message rnd t_reply t_log message).
Proof.
  intros w.
  destruct (process_message rnd t_reply t_log (STATE w) (controller w) message)
    as [[reply self']|e] eqn:Ep.
  - rewrite (controller_process_message_run _ _ _ _ _ _ _ Ep). cbn [snd].
    apply process_message_inv in Ep. subst self'.
    split; [reflexivity|]. split.
    + exists (fun _ => true). cbn [manager]. now rewrite filter_true.
    + now exists [mkEntry t_log message reply].
  - rewrite (controller_process_message_raise _ _ _ _ _ _ Ep).
    apply narrows_refl.
Qed.

Lemma keeps_answer_user_message (out : Console) (net1 net2 net3 : Network)
    (rnd : nat) (t_reply t_log : datetime) (user_text : string) :
  keeps (answer_user_message out net1 net2 net3 rnd t_reply t_log user_text).
Proof.
  intros w. unfold answer_user_message.
  unfold abind at 1 2 3. unfold get_STATE, set_STATE.
  cbn [STATE controller manager trace].
  match goal with
  | |- narrows _ (snd (?m ?w1)) =>
      apply (narrows_trans w w1); [|generalize w1; change (keeps m)]
  end.
  - split; [reflexivity|]. split; [|now exists []].
    exists (fun _ => true). cbn [manager]. now rewrite filter_true.
  - apply keeps_bind; [apply keeps_broadcast | intros _].
    apply keeps_bind; [apply keeps_broadcast | intros _].
    apply keeps_bind; [apply keeps_controller_process_message | intros reply].
    apply keeps_bind; [apply keeps_print | intros _].
    apply keeps_bind; [intros w1; apply narrows_trace | intros _].
    apply keeps_bind; [apply keeps_broadcast | intros _].
    apply keeps_ret.
Qed.

Lemma on_message_keeps (out : Console) (net1 net2 net3 : Network) (rnd : nat)
    (t_reply t_log : datetime) (ws : WebSocket) (msg : json) :
  keeps (on_message out net1 net2 net3 rnd t_reply t_log ws msg).
Proof.
  unfold on_message.
  apply keeps_bind; [apply keeps_print | intros _].
  apply keeps_bind; [apply keeps_lift | intros mtype].
  destruct (json_is_str mtype "user_message").
  - apply keeps_bind; [apply keeps_lift | intros text].
    apply keeps_bind; [apply keeps_lift | intros user_text].
    apply keeps_bind; [apply keeps_print | intros _].
    destruct (PyStr.truthy user_text);
      [apply keeps_answer_user_message | apply keeps_ret].
  - destruct (json_is_str mtype "request_state").
    + apply keeps_bind; [apply keeps_ret | intros _]. apply keeps_send_state.
    + apply keeps_print.
Qed.

Lemma add_all_steady (t0 : datetime) (entries : list ConversationEntry) :
  forall w : World,
    steady t0 w ->
    steady t0 (mkWorld (STATE w) (add_all entries (controller w))
                 (manager w) (trace w)).
Proof.
  induction entries as [|e entries IH]; intros w Hw.
  - now destruct w.
  - cbn [add_all fold_left].
    change (fold_left _ entries ?c) with (add_all entries c).
    apply (IH (mkWorld (STATE w)
                 (add_to_history (timestamp e) (user e) (bot e) (controller w))
                 (manager w) (trace w))).
    destruct Hw as (Hlen & Hstatus & Hprefs & Hpending & Hnd).
    repeat split; cbn [STATE controller manager]; trivial.
    rewrite add_to_history_recent by exact Hlen. apply skipn_recent_length.
Qed.

Lemma narrows_steady (t0 : datetime) (w w' : World) :
  steady t0 w -> narrows w w' -> steady t0 w'.
Proof.
  intros Hw (Hpending & [keep Hactive] & [entries Hctrl]).
  destruct (add_all_steady t0 entries w Hw)
    as (Hlen & Hstatus & Hprefs & Hp & Hnd).
  cbn [STATE controller manager] in *. rewrite <- Hctrl in *.
  repeat split; trivial.
  - congruence.
  - rewrite Hactive. now apply NoDup_filter.
Qed.

Lemma disconnect_steady (t0 : datetime) (ws : WebSocket) (w : World) :
  steady t0 w -> steady t0 (snd (disconnect ws w)).
Proof.
  intros (Hlen & Hstatus & Hprefs & Hpending & Hnd).
  rewrite disconnect_run. cbn [snd].
  repeat split; cbn [STATE controller manager active]; trivial.
  destruct (existsb _ _); [now apply list_remove_NoDup | exact Hnd].
Qed.

Lemma update_state_narrows (net : Network) (update : StateUpdate.t) (w : World) :
  narrows w (snd (update_state net update w)).
Proof.
  unfold update_state, abind, get_STATE, set_STATE.
  cbn [STATE controller manager trace]. rewrite broadcast_run.
  cbn [snd STATE controller manager trace active].
  split; [now rewrite setattr_items|].
  split; [exists (send_ok net); reflexivity | now exists []].
Qed.

Lemma process_message_directly_narrows (rnd : nat) (t_reply t_log : datetime)
    (payload_text : string) (w : World) :
  narrows w (snd (process_message_directly rnd t_reply t_log payload_text w)).
Proof.
  revert w. change (keeps (process_message_directly rnd t_reply t_log
                             payload_text)).
  unfold process_message_directly.
  apply keeps_bind; [apply keeps_controller_process_message | intros r].
  apply keeps_ret.
Qed.

Lemma websocket_step_steady (t0 : datetime) (out : Console)
    (net1 net2 net3 : Network) (rnd : nat) (t_reply t_log : datetime)
    (ws : WebSocket) (msg : json) (w : World) :
  steady t0 w ->
  steady t0 (snd (websocket_step out net1 net2 net3 rnd t_reply t_log ws msg w)).
Proof.
  intros Hw. unfold websocket_step, try_except.
  pose proof (on_message_keeps out net1 net2 net3 rnd t_reply t_log ws msg w)
    as Hn.
  destruct (on_message out net1 net2 net3 rnd t_reply t_log ws msg w)
    as [[[]|e] w1]; cbn [snd] in Hn.
  - exact (narrows_steady _ _ _ Hw Hn).
  - unfold abind, print_plain, ret. apply disconnect_steady.
    exact (narrows_steady _ _ _ Hw Hn).
Qed.

Lemma serve_steady (t0 : datetime) (r : request) (w : World) :
  steady t0 w -> admissible r w = true -> steady t0 (serve r w).
Proof.
  intros Hw Hadm. destruct r; cbn [serve admissible] in *.
  - unfold websocket_open, print, connect, accept.
    destruct (out (Attempt ws)); [exact Hw|].
    destruct accepted; [exact Hw|].
    destruct Hw as (Hlen & Hstatus & Hprefs & Hpending & Hnd).
    unfold abind, ret, get_active, set_active, print_plain.
    cbn [STATE controller manager trace active]. rewrite send_state_run.
    assert (NoDup (active (manager w) ++ [ws])) as Hnd'.
    { apply NoDup_app; [exact Hnd | repeat constructor; easy |].
      intros x Hin [<-|[]]. apply existsb_eqb_In in Hin.
      rewrite Hin in Hadm. discriminate. }
    destruct (net ws); repeat split;
      cbn [snd STATE controller manager active]; trivial.
  - now apply websocket_step_steady.
  - now apply disconnect_steady.
  - exact (narrows_steady _ _ _ Hw (update_state_narrows _ _ _)).
  - destruct Hw as (Hlen & Hstatus & Hprefs & Hpending & Hnd).
    unfold bot_reply, assign_bot_reply_pending, abind, get_STATE, set_STATE,
      emit.
    cbn [STATE controller manager trace]. rewrite broadcast_run.
    repeat split; cbn [snd STATE controller manager active bot_reply_pending
                       set_bot_reply_pending]; trivial.
    now apply NoDup_filter.
  - exact (narrows_steady _ _ _ Hw (process_message_directly_narrows _ _ _ _ _)).
Qed.

(** X6: handling a message never lets an exception out of the receive
    loop: the handler returns, and when the message could not be handled
    (a failed send of the state, a reply that cannot be generated) the
    connection that sent it is no longer registered. *)
Theorem websocket_step_never_raises (out : Console) (net1 net2 net3 : Network)
    (rnd : nat) (t_reply t_log : datetime) (ws : WebSocket) (msg : json)
    (w : World) :
  fst (websocket_step out net1 net2 net3 rnd t_reply t_log ws msg w) = Ok tt
  /\ (forall e : exn,
        fst (on_message out net1 net2 net3 rnd t_reply t_log ws msg w)
        = Raise e ->
        NoDup (active (manager w)) ->
        ~ In ws (active (manager
             (snd (websocket_step out net1 net2 net3 rnd t_reply t_log ws
                     msg w))))).
Proof.
  unfold websocket_step, try_except.
  pose proof (on_message_keeps out net1 net2 net3 rnd t_reply t_log ws msg w)
    as (_ & [keep Hactive] & _).
  destruct (on_message out net1 net2 net3 rnd t_reply t_log ws msg w)
    as [[[]|e] w1]; cbn [fst snd] in *.
  - split; [reflexivity | discriminate].
  - unfold abind, print_plain, ret. rewrite disconnect_run.
    cbn [fst snd manager active].
    split; [reflexivity|]. intros _ _ Hnd.
    assert (NoDup (active (manager w1))) as Hnd1
      by (rewrite Hactive; now apply NoDup_filter).
    destruct (existsb (Nat.eqb ws) (active (manager w1))) eqn:E.
    + now apply list_remove_NoDup.
    + intros Hin%existsb_eqb_In. congruence.
Qed.

Lemma websocket_step_never_raises_witness :
  let s := setattr HudState_default (StateUpdate.set_battery_pct None) in
  let w := mkWorld s (StatefulController_init 0) (mkManager [1; 2]%nat) [] in
  let net : Network := fun _ => None in
  let out : Console := fun _ => None in
  let msg := user_message "battery charge?" in
  (fst (on_message out net net net 0 0 0 2%nat msg w) = Raise TypeError
   /\ NoDup (active (manager w)))
  /\ fst (websocket_step out net net net 0 0 0 2%nat msg w) = Ok tt
  /\ ~ In 2%nat
       (active (manager
          (snd (websocket_step out net net net 0 0 0 2%nat msg w)))).
Proof.
  intros s w net out msg.
  assert (NoDup (active (manager w))) as Hnd.
  { repeat (constructor;
              [ simpl; intros H; repeat destruct H as [H|H];
                try discriminate H; exact H | ]).
    constructor. }
  split; [split; [reflexivity | exact Hnd]|].
  destruct (websocket_step_never_raises out net net net 0 0 0 2%nat msg w)
    as [Hok Hgone].
  split; [exact Hok | exact (Hgone TypeError eq_refl Hnd)].
Defined.

Lemma reachable_is_steady (t0 : datetime) (w : World) :
  reachable t0 w -> steady t0 w.
Proof.
  induction 1 as [|r w Hr IH Hadm].
  - repeat split; cbn; try lia. constructor.
  - now apply serve_steady.
Qed.

(** X7: in every state a server started at [t0] can be in between two
    requests, the log holds at most 20 exchanges (so does the count the
    history endpoint reports), the last maintenance date is still the one
    set at start-up, seven days before [t0], [bot_reply_pending] is
    [None], and no connection is registered twice. *)
Theorem reachable_steady (t0 : datetime) (w : World) :
  reachable t0 w ->
  (List.length (conversation_history (controller w)) <= 20)%nat
  /\ (exists h n, get_conversation_history w = (Ok (h, n), w) /\ (n <= 20)%nat)
  /\ last_maintenance (system_status (controller w)) = t0 - timedelta_days 7
  /\ bot_reply_pending (STATE w) = None
  /\ NoDup (active (manager w)).
Proof.
  intros Hr.
  destruct (reachable_is_steady t0 w Hr) as (Hlen & Hstatus & _ & Hpending & Hnd).
  split; [exact Hlen|]. split; [|split; [now rewrite Hstatus | now split]].
  eexists _, _. split; [reflexivity | exact Hlen].
Qed.

Lemma reachable_steady_witness :
  let w := serve (PostProcess 0 5 6 "hello")
             (serve (Connect (fun _ => None) None (fun _ => None) 1%nat)
                (initial_world 0)) in
  reachable 0 w
  /\ (List.length (conversation_history (controller w)) <= 20)%nat
  /\ last_maintenance (system_status (controller w)) = 0 - timedelta_days 7
  /\ bot_reply_pending (STATE w) = None
  /\ NoDup (active (manager w)).
Proof.
  intros w.
  assert (reachable 0 w) as Hr.
  { apply reachable_serve; [|reflexivity].
    apply reachable_serve; [|reflexivity]. apply reachable_initial. }
  split; [exact Hr|].
  destruct (reachable_steady 0 w Hr) as (Hlen & _ & Hlast & Hpending & Hnd).
  repeat split; assumption.
Defined.

End Steady.

(** ** Successive updates *)

Section UpdateTwice.

Lemma update_state_run (net : Network) (update : StateUpdate.t) (w : World) :
  let s' := fold_left setattr (StateUpdate.dict_exclude_unset update) (STATE w) in
  update_state net update w
  = (Ok tt,
     mkWorld s' (controller w)
       (mkManager (filter (send_ok net) (active (manager w))))
       (trace w ++ BroadcastCalled (state_event s')
                :: attempts net (state_event s') (active (manager w)))).
Proof.
  cbv zeta. unfold update_state, abind, get_STATE, set_STATE.
  cbn [STATE controller manager trace]. now rewrite broadcast_run.
Qed.

Lemma updated_twice {A : Type} (supplied : option A) (former : A) :
  updated supplied (updated supplied former) = updated supplied former.
Proof. now destruct supplied. Qed.

(** X8: of two updates in a row the later one wins field by field, and a
    field neither sets keeps its value; so sending the same update again
    leaves the state as the first time, and an update that sets no field
    leaves the state as it is, and still broadcasts it. *)
Theorem update_state_twice (net1 net2 : Network) (u1 u2 : StateUpdate.t)
    (w : World) :
  let w1 := snd (update_state net1 u1 w) in
  let w2 := snd (update_state net2 u2 w1) in
  let s := STATE w in
  let twice {A : Type} (f1 f2 : option A) (former : A) :=
    updated f2 (updated f1 former) in
  STATE w2
  = {| headline :=
         twice (StateUpdate.headline u1) (StateUpdate.headline u2) (headline s);
       eve := twice (StateUpdate.eve u1) (StateUpdate.eve u2) (eve s);
       battery_pct :=
         twice (StateUpdate.battery_pct u1) (StateUpdate.battery_pct u2)
               (battery_pct s);
       load_w := twice (StateUpdate.load_w u1) (StateUpdate.load_w u2) (load_w s);
       sun_w := twice (StateUpdate.sun_w u1) (StateUpdate.sun_w u2) (sun_w s);
       load_min_w :=
         twice (StateUpdate.load_min_w u1) (StateUpdate.load_min_w u2)
               (load_min_w s);
       load_max_w :=
         twice (StateUpdate.load_max_w u1) (StateUpdate.load_max_w u2)
               (load_max_w s);
       sun_min_w :=
         twice (StateUpdate.sun_min_w u1) (StateUpdate.sun_min_w u2)
               (sun_min_w s);
       sun_max_w :=
         twice (StateUpdate.sun_max_w u1) (StateUpdate.sun_max_w u2)
               (sun_max_w s);
       last_user_line :=
         twice (StateUpdate.last_user_line u1) (StateUpdate.last_user_line u2)
               (last_user_line s);
       bot_reply_pending := bot_reply_pending s |}
  /\ STATE (snd (update_state net2 u1 w1)) = STATE w1
  /\ (let unset := StateUpdate.mk None None None None None None None None
                     None None in
      let w0 := snd (update_state net1 unset w) in
      STATE w0 = STATE w
      /\ broadcasts (trace w0) = broadcasts (trace w) ++ [state_event (STATE w)]).
Proof.
  cbv zeta. rewrite !update_state_run.
  cbn [snd STATE controller manager trace active]. rewrite !setattr_items.
  cbn [headline eve battery_pct load_w sun_w load_min_w load_max_w sun_min_w
       sun_max_w last_user_line bot_reply_pending].
  split; [reflexivity|]. split.
  - now rewrite !updated_twice.
  - cbn [StateUpdate.dict_exclude_unset StateUpdate.entry app fold_left
         StateUpdate.headline StateUpdate.eve StateUpdate.battery_pct
         StateUpdate.load_w StateUpdate.sun_w StateUpdate.load_min_w
         StateUpdate.load_max_w StateUpdate.sun_min_w StateUpdate.sun_max_w
         StateUpdate.last_user_line updated].
    split; [now destruct (STATE w)|].
    rewrite broadcasts_app, broadcasts_called, broadcasts_attempts.
    now destruct (STATE w).
Qed.

End UpdateTwice.

(** ** Maintenance and uptime *)

Section Uptime.

Local Open Scope string_scope.

Lemma days_between_shift (a b : datetime) (n : Z) :
  days_between a (b - timedelta_days n) = days_between a b + n.
Proof.
  unfold days_between, timedelta_days.
  replace (a - (b - n * microseconds_per_day))
    with (a - b + n * microseconds_per_day) by lia.
  apply Z.div_add. discriminate.
Qed.

Lemma days_between_ge (a b : datetime) (n : Z) :
  n <= days_between a b <-> timedelta_days n <= a - b.
Proof.
  unfold days_between, timedelta_days. split; intros H.
  - pose proof (Z.mul_div_le (a - b) microseconds_per_day eq_refl) as Hq.
    set (q := (a - b) / microseconds_per_day) in *.
    unfold microseconds_per_day in *. lia.
  - apply Z.div_le_lower_bound; [reflexivity | lia].
Qed.

(** X9: the maintenance date is never moved, so the maintenance reply of
    a server started at [t0] depends on its uptime alone: before 24 days
    of uptime it says how long ago the last maintenance was (7 days plus
    the whole days of uptime) and how many days are left, and from 24 days
    on it says by how many days maintenance is overdue. *)
Theorem maintenance_by_uptime (t0 : datetime) (w : World) (rnd : nat)
    (now : datetime) (message : string) :
  reachable t0 w ->
  let up := days_between now t0 in
  let reply :=
    generate_response rnd now (STATE w) (controller w) message maintenance in
  (now - t0 < timedelta_days 24 ->
   reply = Ok ("Last maintenance was " ++ PyStr.str_of_int (up + 7)
               ++ " days ago. Next scheduled maintenance in "
               ++ PyStr.str_of_int (23 - up) ++ " days.")
   /\ 0 <= 23 - up)
  /\ (timedelta_days 24 <= now - t0 ->
      reply = Ok ("System maintenance is overdue by "
                  ++ PyStr.str_of_int (up - 23)
                  ++ " days. Recommend scheduling a service check.")
      /\ 1 <= up - 23).
Proof.
  intros Hr. cbv zeta.
  destruct (reachable_is_steady t0 w Hr) as (_ & Hstatus & _).
  unfold generate_response. rewrite Hstatus.
  cbn [StatefulController_init system_status last_maintenance].
  rewrite days_between_shift.
  pose proof (days_between_ge now t0 24) as H24.
  split; intros H.
  - assert (days_between now t0 < 24) as Hlt by lia.
    destruct (Z.ltb_spec 30 (days_between now t0 + 7)) as [|_]; [lia|].
    split; [|lia].
    now replace (30 - (days_between now t0 + 7))
      with (23 - days_between now t0) by lia.
  - assert (24 <= days_between now t0) as Hge by (apply H24; exact H).
    destruct (Z.ltb_spec 30 (days_between now t0 + 7)) as [_|]; [|lia].
    split; [|lia].
    now replace (days_between now t0 + 7 - 30)
      with (days_between now t0 - 23) by lia.
Qed.

Lemma maintenance_by_uptime_witness :
  let w := serve (PostBotReply (fun _ => None) "Back online.") (initial_world 0) in
  let now := timedelta_days 30 + 5 in
  (reachable 0 w /\ timedelta_days 24 <= now - 0)
  /\ generate_response 0 now (STATE w) (controller w) "any service due?"
       maintenance
     = Ok "System maintenance is overdue by 7 days. Recommend scheduling a service check.".
Proof.
  intros w now.
  assert (reachable 0 w) as Hr
    by (apply reachable_serve; [apply reachable_initial | reflexivity]).
  assert (timedelta_days 24 <= now - 0) as Hup by discriminate.
  split; [split; assumption|].
  exact (proj1 (proj2 (maintenance_by_uptime 0 w 0 now "any service due?" Hr)
                  Hup)).
Defined.

End Uptime.

(** ** Replies that fail, replies that interpolate *)

Section ReplyContents.

Local Open Scope string_scope.

(** X10: reply generation raises exactly when the intent is [power] and
    one of the load, the solar input and the battery level is not a finite
    number, or the intent is [battery] and the battery level is not one;
    for every other intent, and whenever those numbers are finite, it
    returns a reply. *)
Theorem generate_response_fails_iff (rnd : nat) (now : datetime)
    (s : HudState) (self : StatefulController) (message : string) (i : Intent) :
  ((exists e : exn, generate_response rnd now s self message i = Raise e)
   <-> can_reply s i = false)
  /\ ((exists reply : string,
         generate_response rnd now s self message i = Ok reply)
      <-> can_reply s i = true).
Proof.
  destruct (can_reply s i) eqn:E.
  - destruct (generate_response_returns rnd now s self message i E) as [r Hr].
    rewrite Hr. split; split; try easy; [intros [e He]; discriminate | eauto].
  - destruct (generate_response_raises rnd now s self message i E) as [e He].
    rewrite He. split; split; try easy; [eauto | intros [r Hr]; discriminate].
Qed.

(** X11: when the reply to a message cannot be generated, the direct
    processing endpoint raises and leaves everything as it was: nothing is
    logged, the state and the registry are untouched, nothing is sent. *)
Theorem process_message_directly_fails (rnd : nat) (t_reply t_log : datetime)
    (payload_text : string) (w : World) :
  can_reply (STATE w) (intent (analyze_message payload_text)) = false ->
  exists e : exn,
    process_message_directly rnd t_reply t_log payload_text w = (Raise e, w).
Proof.
  intros Hc.
  destruct (generate_response_raises rnd t_reply (STATE w) (controller w)
              payload_text _ Hc) as [e He].
  exists e. unfold process_message_directly, abind.
  rewrite (controller_process_message_raise _ _ _ _ e); [reflexivity|].
  unfold process_message. now rewrite He.
Qed.

Lemma process_message_directly_fails_witness :
  let s := setattr HudState_default (StateUpdate.set_battery_pct (Some nan)) in
  let w := mkWorld s (StatefulController_init 0) (mkManager [1]%nat) [] in
  can_reply (STATE w) (intent (analyze_message "Battery?")) = false
  /\ exists e : exn, process_message_directly 0 0 0 "Battery?" w = (Raise e, w).
Proof.
  intros s w. split; [reflexivity|].
  exact (process_message_directly_fails 0 0 0 "Battery?" w eq_refl).
Defined.

(** X12: a power reply is one of three sentences, each giving the load
    and the solar input (the third also the battery level) as the integers
    that [int] makes of the state's numbers; a battery reply is one of
    three sentences giving the battery level in the same way. *)
Theorem numeric_replies (rnd : nat) (now : datetime) (s : HudState)
    (self : StatefulController) (message : string) (load sun pct : Z) :
  int_of_value (battery_pct s) = Ok pct ->
  (int_of_value (load_w s) = Ok load -> int_of_value (sun_w s) = Ok sun ->
   let l := PyStr.str_of_int load in
   let g := PyStr.str_of_int sun in
   let b := PyStr.str_of_int pct in
   let reply := generate_response rnd now s self message power in
   reply = Ok ("Power consumption is currently at " ++ l ++ "W with " ++ g
               ++ "W solar generation.")
   \/ reply = Ok ("Your power grid shows " ++ l ++ "W load against " ++ g
                  ++ "W solar input.")
   \/ reply = Ok ("Power status: " ++ b ++ "% battery, " ++ l
                  ++ "W consumption, " ++ g ++ "W generation."))
  /\ (let b := PyStr.str_of_int pct in
      let reply := generate_response rnd now s self message battery in
      reply = Ok ("Battery capacity is at " ++ b ++ "%.")
      \/ reply = Ok ("Your energy storage shows " ++ b ++ "% remaining.")
      \/ reply = Ok ("Battery status: " ++ b ++ "% capacity available.")).
Proof.
  intros Hb. split; [intros Hl Hs|]; cbv zeta; unfold generate_response;
    cbn [response_patterns dict_get String.eqb Ascii.eqb Bool.eqb bind];
    match goal with
    | |- context [random_choice rnd [?x; ?y; ?z]] =>
        destruct (random_choice_three rnd x y z) as [E|[E|E]]; rewrite E
    end;
    cbn [bind]; rewrite ?Hl, ?Hs, ?Hb; cbn [bind];
    [left | right; left | right; right | left | right; left | right; right];
    reflexivity.
Qed.

Lemma numeric_replies_witness :
  let s := setattr (setattr HudState_default
                      (StateUpdate.set_battery_pct (Some 76.9%float)))
             (StateUpdate.set_load_w (Some (-0.5)%float)) in
  (int_of_value (battery_pct s) = Ok 76
   /\ int_of_value (load_w s) = Ok 0
   /\ int_of_value (sun_w s) = Ok 8000)
  /\ generate_response 2 0 s (StatefulController_init 0) "power" power
     = Ok "Power status: 76% battery, 0W consumption, 8000W generation.".
Proof.
  intros s.
  assert (int_of_value (battery_pct s) = Ok 76) as Hb by reflexivity.
  assert (int_of_value (load_w s) = Ok 0) as Hl by reflexivity.
  assert (int_of_value (sun_w s) = Ok 8000) as Hs by reflexivity.
  split; [repeat split; assumption|].
  destruct (proj1 (numeric_replies 2 0 s (StatefulController_init 0) "power"
                     0 8000 76 Hb) Hl Hs) as [H|[H|H]].
  - discriminate H.
  - discriminate H.
  - exact H.
Defined.

End ReplyContents.

(** ** What the classifier ignores *)

Section Insensitive.

Local Open Scope string_scope.
Import PyStr.

Lemma lower_char_twice (c : ascii) : lower_char (lower_char c) = lower_char c.
Proof. destruct c as [[] [] [] [] [] [] [] []]; reflexivity. Qed.

Lemma isspace_lower_char (c : ascii) : isspace (lower_char c) = isspace c.
Proof. destruct c as [[] [] [] [] [] [] [] []]; reflexivity. Qed.

Lemma lower_twice (s : string) : lower (lower s) = lower s.
Proof.
  induction s as [|c s IH]; [reflexivity|].
  cbn [lower]. now rewrite lower_char_twice, IH.
Qed.

Lemma lstrip_lower (s : string) : lstrip (lower s) = lower (lstrip s).
Proof.
  induction s as [|c s IH]; [reflexivity|].
  cbn [lower lstrip]. rewrite isspace_lower_char.
  now destruct (isspace c).
Qed.

Lemma rstrip_lower (s : string) : rstrip (lower s) = lower (rstrip s).
Proof.
  induction s as [|c s IH]; [reflexivity|].
  cbn [lower rstrip]. rewrite IH, isspace_lower_char.
  destruct (rstrip s); cbn [lower]; [now destruct (isspace c) | reflexivity].
Qed.

Lemma strip_lower (s : string) : strip (lower s) = lower (strip s).
Proof. unfold strip. now rewrite lstrip_lower, rstrip_lower. Qed.

Lemma rstrip_twice (s : string) : rstrip (rstrip s) = rstrip s.
Proof.
  induction s as [|c s IH]; [reflexivity|]. cbn [rstrip].
  destruct (rstrip s) as [|d r] eqn:E.
  - destruct (isspace c) eqn:Ec; [reflexivity|]. cbn [rstrip]. now rewrite Ec.
  - cbn [rstrip]. cbn [rstrip] in IH. rewrite IH.
    now destruct r.
Qed.

Lemma strip_twice (s : string) : strip (strip s) = strip s.
Proof.
  unfold strip.
  destruct (lstrip_head s) as [->|(c & t & -> & Hc)]; [reflexivity|].
  assert (rstrip (String c t) = String c (rstrip t)) as ->.
  { cbn [rstrip]. rewrite Hc. now destruct (rstrip t). }
  cbn [lstrip]. rewrite Hc.
  cbn [rstrip]. rewrite rstrip_twice, Hc. now destruct (rstrip t).
Qed.

(** X13: the classification of a message does not depend on the case of
    its letters nor on whitespace around it: lower-casing the message or
    stripping it first gives the same intent and confidence. *)
Theorem analyze_message_insensitive (message : string) :
  analyze_message (lower message) = analyze_message message
  /\ analyze_message (strip message) = analyze_message message
  /\ analyze_message (strip (lower message)) = analyze_message message.
Proof.
  assert (strip (lower (strip message)) = strip (lower message)) as E2
    by (now rewrite <- strip_lower, strip_twice).
  assert (strip (lower (strip (lower message))) = strip (lower message)) as E3
    by (now rewrite <- strip_lower, lower_twice, strip_twice).
  unfold analyze_message. rewrite lower_twice, E2, E3.
  repeat split.
Qed.

(** X14: lower-casing and stripping never hide a keyword: a message that
    contains a keyword of any of the six sets is not classified [unknown],
    and a message that contains a greeting keyword is a greeting whatever
    else it contains. *)
Theorem keyword_is_recognised (message : string) :
  (forall words : list string,
     In words keyword_sets -> any_in words message = true ->
     intent (analyze_message message) <> unknown)
  /\ (any_in greeting_keywords message = true ->
      analyze_message message = mkAnalysis greeting 0.9).
Proof.
  split.
  - intros words Hin Hany.
    assert (any_in words (strip (lower message)) = true) as Hkept.
    { apply any_in_kept; [|exact Hany].
      pose proof keywords_plain as Hp. rewrite forallb_forall in Hp.
      now apply Hp. }
    unfold analyze_message, keyword_sets in *. cbn [In] in Hin.
    repeat match goal with
           | |- context [if ?b then _ else _] => destruct b eqn:?
           end; cbn [intent]; try discriminate.
    repeat destruct Hin as [<-|Hin]; congruence.
  - intros Hany. unfold analyze_message.
    now rewrite (any_in_kept greeting_keywords message eq_refl Hany).
Qed.

Lemma keyword_is_recognised_witness :
  let message := "  Is the TANK level ok? " in
  (In water_keywords keyword_sets /\ any_in water_keywords message = true)
  /\ intent (analyze_message message) <> unknown.
Proof.
  intros message.
  assert (In water_keywords keyword_sets) as Hin by (simpl; tauto).
  split; [split; [exact Hin | reflexivity]|].
  exact (proj1 (keyword_is_recognised message) water_keywords Hin eq_refl).
Defined.

End Insensitive.

(** ** What a user message leaves behind *)

Section Logged.

Local Open Scope string_scope.

(** X15: a user message that is answered (a JSON object of type
    [user_message] whose text is a string not empty once trimmed, the
    prints of the message, of the text and of the reply succeeding and the
    reply being generated) sets
    [last_user_line] to the trimmed text and changes no other field of
    the state; it adds one exchange at the end of the log, made of the
    trimmed text, the very reply that is broadcast and the time, the
    oldest exchange being dropped when the log already held 20. *)
Theorem user_message_logged (out : Console) (net1 net2 net3 : Network)
    (rnd : nat) (t_reply t_log : datetime) (ws : WebSocket) (msg : json)
    (text : string) (w : World) :
  let user_text := PyStr.strip text in
  let history := conversation_history (controller w) in
  json_get msg "type" = Ok (Some (JStr "user_message")) ->
  json_get msg "text" = Ok (Some (JStr text)) ->
  PyStr.truthy user_text = true ->
  out (Received msg) = None ->
  out (Processing user_text) = None ->
  (forall bot_response : string, out (BotResponse bot_response) = None) ->
  can_reply (STATE w) (intent (analyze_message user_text)) = true ->
  exists (reply : string) (w' : World),
    on_message out net1 net2 net3 rnd t_reply t_log ws msg w = (Ok tt, w')
    /\ STATE w'
       = {| headline := headline (STATE w);
            eve := eve (STATE w);
            battery_pct := battery_pct (STATE w);
            load_w := load_w (STATE w);
            sun_w := sun_w (STATE w);
            load_min_w := load_min_w (STATE w);
            load_max_w := load_max_w (STATE w);
            sun_min_w := sun_min_w (STATE w);
            sun_max_w := sun_max_w (STATE w);
            last_user_line := Some user_text;
            bot_reply_pending := bot_reply_pending (STATE w) |}
    /\ In (BroadcastCalled (bot_reply_event (Some reply))) (trace w')
    /\ ((List.length history < 20)%nat ->
        conversation_history (controller w')
        = (history ++ [mkEntry t_log user_text reply])%list)
    /\ ((20 <= List.length history)%nat ->
        conversation_history (controller w')
        = (tl history ++ [mkEntry t_log user_text reply])%list)
    /\ system_status (controller w') = system_status (controller w).
Proof.
  cbv zeta. intros Htype Htext Ht Hreceived Hprocessing Hbot Hc.
  set (user_text := PyStr.strip text) in *.
  set (s' := setattr (STATE w) (StateUpdate.set_last_user_line (Some user_text))).
  assert (can_reply s' (intent (analyze_message user_text)) = true) as Hc'
    by (destruct (intent (analyze_message user_text)); exact Hc).
  destruct (generate_response_returns rnd t_reply s' (controller w) user_text
              _ Hc') as [reply Hr].
  assert (process_message rnd t_reply t_log s' (controller w) user_text
          = Ok (reply, add_to_history t_log user_text reply (controller w)))
    as Hp by (unfold process_message; now rewrite Hr).
  exists reply. eexists. split.
  - rewrite (on_message_user out net1 net2 net3 rnd t_reply t_log ws msg text w
               Hreceived Htype Htext Hprocessing Ht).
    exact (answer_user_message_run out net1 net2 net3 rnd t_reply t_log
             user_text w reply _ Hp (Hbot _)).
  - cbn [STATE controller manager trace]. split; [reflexivity|]. split.
    + apply in_or_app. right. apply in_or_app. right.
      apply in_or_app. right. right. now left.
    + unfold add_to_history.
      cbn [set_history conversation_history system_status].
      rewrite length_app. cbn [List.length].
      repeat split.
      * intros Hlt. destruct (Nat.ltb_spec 20
          (List.length (conversation_history (controller w)) + 1));
          [lia | reflexivity].
      * intros Hge. destruct (Nat.ltb_spec 20
          (List.length (conversation_history (controller w)) + 1)); [|lia].
        destruct (conversation_history (controller w));
          [cbn in Hge; lia | reflexivity].
Qed.

Lemma user_message_logged_witness :
  let w := mkWorld HudState_default (StatefulController_init 0)
             (mkManager [1]%nat) [] in
  let net : Network := fun _ => None in
  let out : Console := fun _ => None in
  let msg := user_message "  water tank? " in
  (json_get msg "type" = Ok (Some (JStr "user_message"))
   /\ json_get msg "text" = Ok (Some (JStr "  water tank? "))
   /\ PyStr.truthy (PyStr.strip "  water tank? ") = true
   /\ out (Received msg) = None
   /\ out (Processing "water tank?") = None
   /\ (forall bot_response : string, out (BotResponse bot_response) = None)
   /\ can_reply (STATE w) (intent (analyze_message "water tank?")) = true
   /\ (List.length (conversation_history (controller w)) < 20)%nat)
  /\ exists (reply : string) (w' : World),
       on_message out net net net 0 3 4 1%nat msg w = (Ok tt, w')
       /\ last_user_line (STATE w') = Some "water tank?"
       /\ conversation_history (controller w')
          = [mkEntry 4 "water tank?" reply].
Proof.
  intros w net out msg.
  assert ((List.length (conversation_history (controller w)) < 20)%nat) as Hlen
    by (simpl; lia).
  split; [repeat split; trivial|].
  destruct (user_message_logged out net net net 0 3 4 1%nat msg
              "  water tank? " w eq_refl eq_refl eq_refl eq_refl eq_refl
              (fun _ => eq_refl) eq_refl)
    as (reply & w' & Hrun & Hstate & _ & Hshort & _).
  exists reply, w'. split; [exact Hrun|].
  split; [now rewrite Hstate | exact (Hshort Hlen)].
Defined.

End Logged.
